(** * GT Operating Parameters dashboard: loader and hourly normaliser

    A shallow embedding of [app.py].  The program is a thin layer over a
    data-frame library, so the embedding fixes the behaviour of the library
    calls the program makes ([drop_duplicates], [resample('h').asfreq()],
    [interpolate('linear')], [concat], [iloc]) and then follows the program
    line by line.  The library calls behave as in pandas 2.2, the release
    line the program is written for (the lower-case ['h'] alias, the
    [infer_objects] call after [asfreq]).

    Conventions.
    - A timestamp is the number of seconds since the epoch, a [Z].
    - A numeric cell is an exact rational ([Q]); a missing cell (NaN) is
      [None].  Interpolated cells are stored in lowest terms.  The
      arithmetic is exact where the program rounds to binary64, so a
      statement about an interpolated number is made only where the two
      agree.
    - A raised Python exception is a value of [PyError]; functions that can
      raise return [PyResult]. *)

From Stdlib Require Import ZArith QArith List String Ascii Bool Lia.
From Stdlib Require Import Permutation Sorted.
Import ListNotations.

#[local] Open Scope string_scope.
#[local] Open Scope list_scope.
#[local] Open Scope Z_scope.

(** ** Exceptions *)

Inductive ParseStage :=
| TimeColumn     (* line 27: to_datetime(..., format="%H:%M:%S") *)
| DatetimeColumn (* line 33: to_datetime(Date + " " + time) *).

Inductive PyError :=
| FileNotFoundError
| KeyError
| IndexError
| ValueError_parse (stage : ParseStage) (text : string)
| ValueError_no_objects_to_concatenate
| ValueError_cannot_insert (column : string).

Inductive PyResult (A : Type) :=
| Ok (a : A)
| Raise (e : PyError).

Arguments Ok {A} a.
Arguments Raise {A} e.

Definition bind {A B} (m : PyResult A) (k : A -> PyResult B) : PyResult B :=
  match m with
  | Ok a => k a
  | Raise e => Raise e
  end.

Notation "x <- m ;; k" := (bind m (fun x => k))
  (at level 61, m at next level, right associativity).

Fixpoint mapM {A B} (f : A -> PyResult B) (l : list A) : PyResult (list B) :=
  match l with
  | [] => Ok []
  | a :: l' => b <- f a ;; bs <- mapM f l' ;; Ok (b :: bs)
  end.

Definition raises {A} (m : PyResult A) : Prop := exists e, m = Raise e.

(** ** Data frames *)

Module Frame.

(** One row of the unified table.  Every cell but the timestamp may be
    missing: resampling creates rows that carry a timestamp only. *)
Record Row := mkRow {
  Datetime : Z;
  Date : option string;
  Measurement_time : option string;
  Description : option string;
  Meas : option Q;               (* column "Meas/TotCountrRdg   _" *)
  CharactstcUnit : option string
}.

Definition DataFrame := list Row.

Definition nan_row (t : Z) : Row := mkRow t None None None None None.

Definition set_Datetime (r : Row) (t : Z) : Row :=
  mkRow t (Date r) (Measurement_time r) (Description r) (Meas r)
        (CharactstcUnit r).

Definition set_Meas (r : Row) (y : option Q) : Row :=
  mkRow (Datetime r) (Date r) (Measurement_time r) (Description r) y
        (CharactstcUnit r).

(** *** [df.drop_duplicates(subset='Datetime')], keep = 'first' *)

Fixpoint drop_duplicates_from (seen : list Z) (df : DataFrame) : DataFrame :=
  match df with
  | [] => []
  | r :: rest =>
      if existsb (Z.eqb (Datetime r)) seen
      then drop_duplicates_from seen rest
      else r :: drop_duplicates_from (Datetime r :: seen) rest
  end.

Definition drop_duplicates (df : DataFrame) : DataFrame :=
  drop_duplicates_from [] df.

(** *** Line 44:
    [set_index('Datetime').resample('h').asfreq().infer_objects().reset_index()] *)

Definition HOUR : Z := 3600.

(** The resampler works on the frame sorted by its index (stable). *)
Fixpoint insert_row (r : Row) (l : DataFrame) : DataFrame :=
  match l with
  | [] => [r]
  | x :: xs =>
      if Datetime r <=? Datetime x then r :: l else x :: insert_row r xs
  end.

Fixpoint sort_index (df : DataFrame) : DataFrame :=
  match df with
  | [] => []
  | r :: rs => insert_row r (sort_index rs)
  end.

Definition ax_min (t0 : Z) (ax : list Z) : Z := fold_left Z.min ax t0.
Definition ax_max (t0 : Z) (ax : list Z) : Z := fold_left Z.max ax t0.

(** Bin edges for a tick frequency with [closed = 'left']: the first edge
    is rolled back to the hour, the last edge is rolled forward to the next
    hour (a whole hour further when it already lies on the hour). *)
Definition range_edges (first last : Z) : Z * Z :=
  let foffset := first mod HOUR in
  let loffset := last mod HOUR in
  (if 0 <? foffset then first - foffset else first,
   if 0 <? loffset then last + (HOUR - loffset) else last + HOUR).

(** [date_range(start, end, freq='h')]: every [start + k * HOUR <= end]. *)
Definition date_range (start stop : Z) : list Z :=
  map (fun k => start + HOUR * Z.of_nat k)
      (seq 0 (Z.to_nat ((stop - start) / HOUR + 1))).

(** [ax.inferred_freq == 'h']: at least three stamps, all one hour apart. *)
Fixpoint all_hourly (ax : list Z) : bool :=
  match ax with
  | a :: ((b :: _) as tl) => (b - a =? HOUR) && all_hourly tl
  | _ => true
  end.

Definition inferred_freq_is_h (ax : list Z) : bool :=
  (3 <=? List.length ax)%nat && all_hourly ax.

(** [obj.reindex(res_index)]: label lookup, a row of NaN where the label
    is absent. *)
Definition reindex (obj : DataFrame) (res_index : list Z) : DataFrame :=
  map (fun t =>
         match find (fun r => Datetime r =? t) obj with
         | Some r => r
         | None => nan_row t
         end) res_index.

(** [result = obj.copy(); result.index = res_index] *)
Fixpoint relabel (obj : DataFrame) (res_index : list Z) : DataFrame :=
  match obj, res_index with
  | r :: obj', t :: idx' => set_Datetime r t :: relabel obj' idx'
  | _, _ => []
  end.

(** On a frame without rows the chain raises at [reset_index]: what
    [asfreq] hands on still holds the column it is asked to insert. *)
Definition resample_h_asfreq (df : DataFrame) : PyResult DataFrame :=
  match sort_index df with
  | [] => Raise (ValueError_cannot_insert "Datetime")
  | (r0 :: _) as obj =>
      Ok (let ax := map Datetime obj in
          let '(first, last) :=
            range_edges (ax_min (Datetime r0) ax) (ax_max (Datetime r0) ax) in
          let binner := date_range first last in
          let res_index := removelast binner in
          if inferred_freq_is_h ax
             && (List.length obj =? List.length res_index)%nat
          then relabel obj res_index
          else reindex obj res_index)
  end.

(** *** [interpolate('linear')] on one numeric column

    Positions are [0, 1, 2, ...]; the known samples are the positions that
    hold a number.  With the default [limit_direction = 'forward'] the cells
    before the first known sample are preserved as NaN; every other missing
    cell takes the value of [np.interp]. *)

Fixpoint valid_samples (i : Z) (ys : list (option Q)) : list (Z * Q) :=
  match ys with
  | [] => []
  | Some y :: ys' => (i, y) :: valid_samples (i + 1) ys'
  | None :: ys' => valid_samples (i + 1) ys'
  end.

(** [np.interp] to the right of the sample [(x0, y0)]. *)
Fixpoint np_interp_from (x x0 : Z) (y0 : Q) (pts : list (Z * Q)) : Q :=
  match pts with
  | [] => y0
  | (x1, y1) :: rest =>
      if x <? x1
      then if x =? x0 then y0
           else Qred ((y1 - y0) / inject_Z (x1 - x0) * inject_Z (x - x0) + y0)%Q
      else np_interp_from x x1 y1 rest
  end.

Fixpoint fill_from (i first_valid : Z) (pts : list (Z * Q))
         (x0 : Z) (y0 : Q) (ys : list (option Q)) : list (option Q) :=
  match ys with
  | [] => []
  | Some y :: ys' => Some y :: fill_from (i + 1) first_valid pts x0 y0 ys'
  | None :: ys' =>
      (if i <? first_valid then None
       else Some (np_interp_from i x0 y0 pts))
        :: fill_from (i + 1) first_valid pts x0 y0 ys'
  end.

Definition interpolate_linear (ys : list (option Q)) : list (option Q) :=
  match valid_samples 0 ys with
  | [] => ys                                   (* not valid.any() *)
  | (x0, y0) :: pts => fill_from 0 x0 pts x0 y0 ys
  end.

(** [df[numeric_columns] = ...] *)
Fixpoint assign_Meas (df : DataFrame) (ys : list (option Q)) : DataFrame :=
  match df, ys with
  | r :: df', y :: ys' => set_Meas r y :: assign_Meas df' ys'
  | _, _ => []
  end.

(** *** The normaliser *)

Definition fill_missing_hours_and_interpolate (df : DataFrame)
  : PyResult DataFrame :=
  let df := drop_duplicates df in
  df <- resample_h_asfreq df ;;
  let numeric := interpolate_linear (map Meas df) in
  Ok (assign_Meas df numeric).

End Frame.

Import Frame.

(** ** The loader *)

Module Loader.

(** A row as [pd.read_excel] returns it; [raw_Date] is the cell after
    [astype(str)]. *)
Record RawRow := mkRaw {
  raw_Date : string;
  raw_Measurement_time : string;
  raw_Description : string;
  raw_Meas : option Q;
  raw_CharactstcUnit : string
}.

Definition Sheet := list RawRow.

(** What [os.listdir] returns for a directory, in its order, each name with
    the sheet [pd.read_excel] reads from it. *)
Definition Listing := list (string * Sheet).

Record TimeOfDay := mkTime { hour : Z; minute : Z; second : Z }.

Definition digit (d : Z) : ascii := ascii_of_nat (48 + Z.to_nat d).

Definition two_digits (n : Z) : string :=
  String (digit (n / 10)) (String (digit (n mod 10)) EmptyString).

(** [str(datetime.time)] *)
Definition time_str (t : TimeOfDay) : string :=
  (two_digits (hour t) ++ ":" ++ two_digits (minute t) ++ ":"
     ++ two_digits (second t))%string.

(** [str.endswith] *)
Definition endswith (s suffix : string) : bool :=
  let n := String.length s in
  let m := String.length suffix in
  (m <=? n)%nat && String.eqb (substring (n - m) m s) suffix.

(** [pd.concat(dfs, ignore_index=True)] *)
Definition pd_concat (dfs : list DataFrame) : PyResult DataFrame :=
  match dfs with
  | [] => Raise ValueError_no_objects_to_concatenate
  | _ => Ok (List.concat dfs)
  end.

Section WithDisk.

(** The parsing routines of the data-frame library and the state of the
    disk are parameters of the loader. *)
Variable strptime_HMS : string -> option TimeOfDay.
Variable to_datetime : string -> option Z.
Variable listdir : string -> option Listing.

Definition parse_time (r : RawRow) : PyResult (RawRow * TimeOfDay) :=
  match strptime_HMS (raw_Measurement_time r) with
  | Some t => Ok (r, t)
  | None => Raise (ValueError_parse TimeColumn (raw_Measurement_time r))
  end.

Definition parse_datetime (rt : RawRow * TimeOfDay) : PyResult Row :=
  let '(r, t) := rt in
  let text := (raw_Date r ++ " " ++ time_str t)%string in
  match to_datetime text with
  | Some ts =>
      Ok (mkRow ts (Some (raw_Date r)) (Some (time_str t))
                (Some (raw_Description r)) (raw_Meas r)
                (Some (raw_CharactstcUnit r)))
  | None => Raise (ValueError_parse DatetimeColumn text)
  end.

(** The body of the loop over [file_list], lines 24 to 33. *)
Definition read_file (sheet : Sheet) : PyResult DataFrame :=
  timed <- mapM parse_time sheet ;;
  mapM parse_datetime timed.

Definition file_list (entries : Listing) : Listing :=
  filter (fun e => endswith (fst e) ".XLSX") entries.

Definition load_data (directory : string) : PyResult DataFrame :=
  match listdir directory with
  | None => Raise FileNotFoundError
  | Some entries =>
      dfs <- mapM (fun e => read_file (snd e)) (file_list entries) ;;
      pd_concat dfs
  end.

End WithDisk.

End Loader.

Import Loader.

(** ** The callback *)

Module App.

Definition directories : list (string * string) :=
  [("GT 5", "D:\Python Programming\GT Operating parameters\Operating Parameters\GT 5");
   ("GT 6", "D:\Python Programming\GT Operating parameters\Operating Parameters\GT 6");
   ("GT 7", "D:\Python Programming\GT Operating parameters\Operating Parameters\GT 7")].

Definition getitem (d : list (string * string)) (k : string) : PyResult string :=
  match find (fun kv => String.eqb (fst kv) k) d with
  | Some kv => Ok (snd kv)
  | None => Raise KeyError
  end.

Definition cell_eqb (a b : option string) : bool :=
  match a, b with
  | Some x, Some y => String.eqb x y
  | None, None => true
  | _, _ => false
  end.

(** [Series.unique()]: distinct cells in order of first appearance. *)
Fixpoint unique_from (seen : list (option string)) (l : list (option string))
  : list (option string) :=
  match l with
  | [] => []
  | c :: l' =>
      if existsb (cell_eqb c) seen then unique_from seen l'
      else c :: unique_from (c :: seen) l'
  end.

Definition unique (l : list (option string)) : list (option string) :=
  unique_from [] l.

(** [x[0]] and [.iloc[0]] *)
Definition iloc0 {A} (l : list A) : PyResult A :=
  match l with
  | [] => Raise IndexError
  | a :: _ => Ok a
  end.

(** A cell inside an f-string. *)
Definition fmt (c : option string) : string :=
  match c with
  | Some s => s
  | None => "nan"
  end.

(** [not selected_description] *)
Definition falsy (c : option string) : bool :=
  match c with
  | None => true
  | Some s => String.eqb s ""
  end.

(** [df[col] == selected]: a missing cell equals nothing. *)
Definition matches (selected cell : option string) : bool :=
  match selected, cell with
  | Some x, Some y => String.eqb x y
  | _, _ => false
  end.

Record Figure := mkFigure {
  fig_x : list Z;
  fig_y : list (option Q);
  fig_title : string
}.

Definition title_text (selected_description unit_label : option string)
  : string :=
  ("Data for " ++ fmt selected_description ++ " (" ++ fmt unit_label ++ ")")%string.

(** [px.line(connected_df, x=..., y=..., title=...)] *)
Definition px_line (selected_description : option string)
           (connected_df : DataFrame) : PyResult Figure :=
  unit_label <- iloc0 (map CharactstcUnit connected_df) ;;
  Ok (mkFigure (map Datetime connected_df) (map Meas connected_df)
               (title_text selected_description unit_label)).

Section Callback.

Variable strptime_HMS : string -> option TimeOfDay.
Variable to_datetime : string -> option Z.
Variable listdir : string -> option Listing.

Definition update_output (triggered_input directory_name : string)
           (selected_description : option string)
  : PyResult (list (option string) * option string * Figure) :=
  directory <- getitem directories directory_name ;;
  df <- load_data strptime_HMS to_datetime listdir directory ;;
  let description_options := unique (map Description df) in
  selected_description <-
    (if String.eqb triggered_input "directory-radio"
        || falsy selected_description
     then iloc0 (unique (map Description df))
     else Ok selected_description) ;;
  let filtered_df :=
    filter (fun r => matches selected_description (Description r)) df in
  connected_df <- fill_missing_hours_and_interpolate filtered_df ;;
  fig <- px_line selected_description connected_df ;;
  Ok (description_options, selected_description, fig).

End Callback.

End App.

Import App.

(** ** A parser instance

    The loader takes its two parsers as parameters.  This instance runs it
    on concrete sheets.  It is a strict reader of [H:M:S] (one or two digits
    each, seconds below 60) and of [YYYY-MM-DD HH:MM:SS] (a calendar date
    with two-digit month and day).  It accepts less than the library does,
    which also reads a second field of 60 and other spellings of a date;
    what it accepts it reads as the library does. *)

Module Strptime.

Definition digit_value (c : ascii) : option Z :=
  let n := nat_of_ascii c in
  if ((48 <=? n) && (n <=? 57))%nat then Some (Z.of_nat n - 48) else None.

Fixpoint number (acc : Z) (cs : list ascii) : option Z :=
  match cs with
  | [] => Some acc
  | c :: cs' =>
      match digit_value c with
      | Some d => number (10 * acc + d) cs'
      | None => None
      end
  end.

(** Split at the first occurrence of [sep]. *)
Fixpoint split_at (sep : ascii) (cs : list ascii)
  : option (list ascii * list ascii) :=
  match cs with
  | [] => None
  | c :: cs' =>
      if Ascii.eqb c sep then Some ([], cs')
      else match split_at sep cs' with
           | Some (a, b) => Some (c :: a, b)
           | None => None
           end
  end.

Definition field (lo hi : nat) (bound : Z) (cs : list ascii) : option Z :=
  if ((lo <=? List.length cs) && (List.length cs <=? hi))%nat
  then match number 0 cs with
       | Some n => if n <? bound then Some n else None
       | None => None
       end
  else None.

Definition hms (cs : list ascii) : option TimeOfDay :=
  match split_at ":" cs with
  | Some (h, rest) =>
      match split_at ":" rest with
      | Some (m, s) =>
          match field 1 2 24 h, field 1 2 60 m, field 1 2 60 s with
          | Some h, Some m, Some s => Some (mkTime h m s)
          | _, _, _ => None
          end
      | None => None
      end
  | None => None
  end.

Definition strptime_HMS (s : string) : option TimeOfDay :=
  hms (list_ascii_of_string s).

Definition is_leap (y : Z) : bool :=
  (y mod 4 =? 0) && (negb (y mod 100 =? 0) || (y mod 400 =? 0)).

Definition days_in_month (y m : Z) : Z :=
  if m =? 2 then (if is_leap y then 29 else 28)
  else if (m =? 4) || (m =? 6) || (m =? 9) || (m =? 11) then 30
  else 31.

(** Days since 1970-01-01 of a proleptic Gregorian date. *)
Definition days_from_civil (y m d : Z) : Z :=
  let y := if m <=? 2 then y - 1 else y in
  let era := y / 400 in
  let yoe := y - era * 400 in
  let doy := (153 * (if 2 <? m then m - 3 else m + 9) + 2) / 5 + d - 1 in
  let doe := yoe * 365 + yoe / 4 - yoe / 100 + doy in
  era * 146097 + doe - 719468.

Definition to_datetime (s : string) : option Z :=
  match split_at " " (list_ascii_of_string s) with
  | Some (date, time) =>
      match split_at "-" date with
      | Some (y, md) =>
          match split_at "-" md with
          | Some (m, d) =>
              match field 4 4 10000 y, field 2 2 13 m, field 2 2 32 d,
                    hms time with
              | Some y, Some m, Some d, Some t =>
                  if (1 <=? y) && (1 <=? m) && (1 <=? d)
                     && (d <=? days_in_month y m)
                  then Some (days_from_civil y m d * 86400
                             + hour t * 3600 + minute t * 60 + second t)
                  else None
              | _, _, _, _ => None
              end
          | None => None
          end
      | None => None
      end
  | None => None
  end.

End Strptime.

(** ** Vocabulary of the specification *)

Definition floor_h (t : Z) : Z := t - t mod HOUR.

Definition ceil_h (t : Z) : Z :=
  if t mod HOUR =? 0 then t else floor_h t + HOUR.

Definition on_the_hour (t : Z) : Prop := t mod HOUR = 0.

(** The [k]-th point of the hourly grid that starts at [a]. *)
Definition grid_point (a : Z) (k : nat) : Z := a + HOUR * Z.of_nat k.

Definition is_min (t : Z) (df : DataFrame) : Prop :=
  In t (map Datetime df) /\ forall r, In r df -> t <= Datetime r.

Definition is_max (t : Z) (df : DataFrame) : Prop :=
  In t (map Datetime df) /\ forall r, In r df -> Datetime r <= t.

(** The frame line 44 yields where it returns. *)
Definition resampled (df : DataFrame) : DataFrame :=
  match resample_h_asfreq df with
  | Ok rs => rs
  | Raise _ => []
  end.

(** The frame the normaliser returns where it returns. *)
Definition normalised (df : DataFrame) : DataFrame :=
  let rs := resampled (drop_duplicates df) in
  assign_Meas rs (interpolate_linear (map Meas rs)).

(** Order of the known samples by position. *)
Definition before (a b : Z * Q) : Prop := fst a < fst b.

(** The numeric column on the hourly grid, before interpolation. *)
Definition grid_column (df : DataFrame) : list (option Q) :=
  map Meas (resampled (drop_duplicates df)).

(** [needle in haystack] *)
Fixpoint contains (haystack needle : string) : bool :=
  prefix needle haystack
  || match haystack with
     | EmptyString => false
     | String _ rest => contains rest needle
     end.

(** A raw row and the row of the unified table made from it. *)
Definition unified (strptime_HMS : string -> option TimeOfDay)
           (to_datetime : string -> option Z) (raw : RawRow) (r : Row) : Prop :=
  exists t,
    strptime_HMS (raw_Measurement_time raw) = Some t
    /\ to_datetime (raw_Date raw ++ " " ++ time_str t)%string
       = Some (Datetime r)
    /\ Date r = Some (raw_Date raw)
    /\ Measurement_time r = Some (time_str t)
    /\ Description r = Some (raw_Description raw)
    /\ Meas r = raw_Meas raw
    /\ CharactstcUnit r = Some (raw_CharactstcUnit raw).

(** The non-numeric cells of a row. *)
Definition labels (r : Row)
  : option string * option string * option string * option string :=
  (Date r, Measurement_time r, Description r, CharactstcUnit r).

(** The straight line through [(i, v0)] and [(j, v1)], read at [k]. *)
Definition on_line (i : Z) (v0 : Q) (j : Z) (v1 : Q) (k : Z) : Q :=
  Qred ((v1 - v0) / inject_Z (j - i) * inject_Z (k - i) + v0)%Q.

(** A row moved to the start of its hour. *)
Definition snap (r : Row) : Row := set_Datetime r (floor_h (Datetime r)).

(** The rows of the loaded table that belong to the selected channel. *)
Definition filtered (selected : option string) (df : DataFrame) : DataFrame :=
  filter (fun r => matches selected (Description r)) df.

(** The unit selector of the layout: one option per key of [directories],
    label and value alike, and the value it starts with. *)
Definition radio_options : list (string * string) :=
  map (fun k => (k, k)) (map fst directories).

Definition radio_value : string := "GT 5".

(** ** Sample data *)

Definition reading (t : Z) (y : option Q) : Row :=
  mkRow t (Some "2024-01-01") (Some "00:00:00") (Some "Temp") y (Some "degC").

Definition GT5 : string :=
  "D:\Python Programming\GT Operating parameters\Operating Parameters\GT 5".

Definition sheet_off_hour : Sheet :=
  [mkRaw "2024-01-01" "00:30:00" "Temp" (Some (1#1)) "degC";
   mkRaw "2024-01-01" "02:00:00" "Temp" (Some (2#1)) "degC"].

Definition sheet_bad_time : Sheet :=
  [mkRaw "2024-01-01" "01:00:00" "Temp" (Some (1#1)) "degC";
   mkRaw "2024-01-01" "1 pm" "Temp" (Some (2#1)) "degC"].

Definition disk (entries : Listing) (d : string) : option Listing :=
  if String.eqb d GT5 then Some entries else None.

(** ** Lists *)

Lemma NoDup_map_inj {A B} (f : A -> B) (l : list A) (a b : A) :
  NoDup (map f l) -> In a l -> In b l -> f a = f b -> a = b.
Proof.
  induction l as [|x l IH]; simpl; intros ND Ha Hb E; [tauto|].
  inversion ND as [|? ? Hx ND']; subst.
  destruct Ha as [->|Ha], Hb as [->|Hb]; auto.
  - exfalso. apply Hx. rewrite E. now apply in_map.
  - exfalso. apply Hx. rewrite <- E. now apply in_map.
Qed.

Lemma existsb_eqb_In (t : Z) (l : list Z) :
  existsb (Z.eqb t) l = true <-> In t l.
Proof.
  rewrite existsb_exists. split.
  - intros (x & Hx & E). apply Z.eqb_eq in E. now subst.
  - intros H. exists t. split; [assumption | apply Z.eqb_refl].
Qed.

(** ** Deduplication *)

Lemma drop_from_In seen df r :
  In r (drop_duplicates_from seen df) ->
  In r df /\ ~ In (Datetime r) seen.
Proof.
  revert seen. induction df as [|x df IH]; simpl; intros seen H; [tauto|].
  destruct (existsb (Z.eqb (Datetime x)) seen) eqn:E.
  - apply IH in H. tauto.
  - destruct H as [->|H].
    + split; [now left|]. intros C. apply existsb_eqb_In in C. congruence.
    + apply IH in H. simpl in H. tauto.
Qed.

Lemma drop_from_NoDup seen df :
  NoDup (map Datetime (drop_duplicates_from seen df)).
Proof.
  revert seen. induction df as [|x df IH]; simpl; intros seen; [constructor|].
  destruct (existsb (Z.eqb (Datetime x)) seen) eqn:E; [apply IH|].
  simpl. constructor; [|apply IH].
  intros C. apply in_map_iff in C. destruct C as (r & Er & Hr).
  apply drop_from_In in Hr. simpl in Hr. intuition congruence.
Qed.


Lemma drop_from_stamps seen df t :
  In t (map Datetime df) -> ~ In t seen ->
  In t (map Datetime (drop_duplicates_from seen df)).
Proof.
  intros H Hs. apply in_map_iff in H. destruct H as (r & <- & Hr).
  revert seen Hs. induction df as [|x df IH]; simpl; intros seen Hs; [tauto|].
  destruct (Z.eq_dec (Datetime x) (Datetime r)) as [E|NE].
  - destruct (existsb (Z.eqb (Datetime x)) seen) eqn:Ex.
    + apply existsb_eqb_In in Ex. rewrite E in Ex. contradiction.
    + simpl. now left.
  - destruct Hr as [->|Hr]; [congruence|].
    destruct (existsb (Z.eqb (Datetime x)) seen) eqn:Ex.
    + now apply IH.
    + simpl. right. apply IH; [assumption|].
      simpl. intros [C|C]; congruence.
Qed.

Lemma drop_duplicates_In df r :
  In r (drop_duplicates df) -> In r df.
Proof. intros H. now apply drop_from_In in H. Qed.

Lemma drop_duplicates_NoDup df :
  NoDup (map Datetime (drop_duplicates df)).
Proof. apply drop_from_NoDup. Qed.


Lemma drop_duplicates_stamps df t :
  In t (map Datetime (drop_duplicates df)) <-> In t (map Datetime df).
Proof.
  split.
  - intros H. apply in_map_iff in H. destruct H as (r & <- & Hr).
    apply in_map. now apply drop_duplicates_In.
  - intros H. apply drop_from_stamps; auto.
Qed.

Lemma drop_duplicates_nonempty df :
  df <> [] -> drop_duplicates df <> [].
Proof.
  destruct df as [|r df]; [congruence|]. intros _. discriminate.
Qed.

(** ** Sorting by the index *)

Lemma insert_row_perm r l : Permutation (insert_row r l) (r :: l).
Proof.
  induction l as [|x l IH]; simpl; [reflexivity|].
  destruct (Datetime r <=? Datetime x); [reflexivity|].
  rewrite IH. apply perm_swap.
Qed.

Lemma sort_index_perm df : Permutation (sort_index df) df.
Proof.
  induction df as [|r df IH]; simpl; [constructor|].
  rewrite insert_row_perm. now constructor.
Qed.

Lemma sort_index_In df r : In r (sort_index df) <-> In r df.
Proof.
  split; apply Permutation_in;
    [apply sort_index_perm | symmetry; apply sort_index_perm].
Qed.

Lemma sort_index_NoDup df :
  NoDup (map Datetime df) -> NoDup (map Datetime (sort_index df)).
Proof.
  apply Permutation_NoDup, Permutation_map. symmetry. apply sort_index_perm.
Qed.

Lemma sort_index_nil df : sort_index df = [] -> df = [].
Proof.
  intros H. apply Permutation_nil. rewrite <- H.
  apply sort_index_perm.
Qed.

(** ** The extremes of the axis *)

Lemma ax_min_spec ax t0 :
  In (ax_min t0 ax) (t0 :: ax)
  /\ forall t, In t (t0 :: ax) -> ax_min t0 ax <= t.
Proof.
  unfold ax_min. revert t0. induction ax as [|a ax IH]; simpl; intros t0.
  - split; [now left|]. intros t [<-|[]]. lia.
  - destruct (IH (Z.min t0 a)) as [Hin Hle]. split.
    + destruct Hin as [E|Hin]; [|now right; right].
      rewrite <- E. destruct (Z.min_spec t0 a) as [[_ ->]|[_ ->]]; auto.
    + intros t [<-|[<-|Ht]].
      * specialize (Hle (Z.min t0 a) (or_introl eq_refl)). lia.
      * specialize (Hle (Z.min t0 a) (or_introl eq_refl)). lia.
      * apply Hle. now right.
Qed.

Lemma ax_max_spec ax t0 :
  In (ax_max t0 ax) (t0 :: ax)
  /\ forall t, In t (t0 :: ax) -> t <= ax_max t0 ax.
Proof.
  unfold ax_max. revert t0. induction ax as [|a ax IH]; simpl; intros t0.
  - split; [now left|]. intros t [<-|[]]. lia.
  - destruct (IH (Z.max t0 a)) as [Hin Hle]. split.
    + destruct Hin as [E|Hin]; [|now right; right].
      rewrite <- E. destruct (Z.max_spec t0 a) as [[_ ->]|[_ ->]]; auto.
    + intros t [<-|[<-|Ht]].
      * specialize (Hle (Z.max t0 a) (or_introl eq_refl)). lia.
      * specialize (Hle (Z.max t0 a) (or_introl eq_refl)). lia.
      * apply Hle. now right.
Qed.

(** The extremes the resampler computes are the extremes of the frame. *)
Lemma ax_min_is_min r0 obj :
  forall t, In t (map Datetime (r0 :: obj)) ->
            ax_min (Datetime r0) (map Datetime (r0 :: obj)) <= t.
Proof.
  intros t Ht. apply ax_min_spec. now right.
Qed.

Lemma ax_min_In r0 obj :
  In (ax_min (Datetime r0) (map Datetime (r0 :: obj)))
     (map Datetime (r0 :: obj)).
Proof.
  destruct (ax_min_spec (map Datetime (r0 :: obj)) (Datetime r0)) as [H _].
  destruct H as [<-|H]; [now left | exact H].
Qed.

Lemma ax_max_is_max r0 obj :
  forall t, In t (map Datetime (r0 :: obj)) ->
            t <= ax_max (Datetime r0) (map Datetime (r0 :: obj)).
Proof.
  intros t Ht. apply ax_max_spec. now right.
Qed.

Lemma ax_max_In r0 obj :
  In (ax_max (Datetime r0) (map Datetime (r0 :: obj)))
     (map Datetime (r0 :: obj)).
Proof.
  destruct (ax_max_spec (map Datetime (r0 :: obj)) (Datetime r0)) as [H _].
  destruct H as [<-|H]; [now left | exact H].
Qed.

(** ** Hours *)

Lemma HOUR_pos : 0 < HOUR.
Proof. reflexivity. Qed.

Lemma floor_h_spec t :
  floor_h t <= t < floor_h t + HOUR /\ floor_h t mod HOUR = 0.
Proof.
  unfold floor_h. pose proof (Z.mod_pos_bound t HOUR HOUR_pos) as B.
  split; [lia|].
  rewrite Zminus_mod_idemp_r, Z.sub_diag. reflexivity.
Qed.

Lemma floor_h_fixed t : on_the_hour t -> floor_h t = t.
Proof. unfold on_the_hour, floor_h. lia. Qed.

Lemma on_the_hour_multiple t : on_the_hour t <-> exists k, t = HOUR * k.
Proof.
  unfold on_the_hour. split.
  - intros H. exists (t / HOUR).
    pose proof (Z.div_mod t HOUR). unfold HOUR in *. lia.
  - intros [k ->]. rewrite Z.mul_comm. apply Z.mod_mul. discriminate.
Qed.

Lemma floor_h_multiple t : exists k, floor_h t = HOUR * k.
Proof. apply on_the_hour_multiple, floor_h_spec. Qed.

Lemma floor_h_mono a b : a <= b -> floor_h a <= floor_h b.
Proof.
  intros H. unfold floor_h.
  pose proof (Z.div_mod a HOUR). pose proof (Z.div_mod b HOUR).
  pose proof (Z.div_le_mono a b HOUR HOUR_pos H). unfold HOUR in *. lia.
Qed.

Lemma range_edges_floor a b :
  range_edges a b = (floor_h a, floor_h b + HOUR).
Proof.
  unfold range_edges, floor_h.
  pose proof (Z.mod_pos_bound a HOUR HOUR_pos).
  pose proof (Z.mod_pos_bound b HOUR HOUR_pos).
  destruct (Z.ltb_spec 0 (a mod HOUR)), (Z.ltb_spec 0 (b mod HOUR));
    f_equal; lia.
Qed.

(** ** The hourly grid *)

Lemma date_range_unfold a b :
  date_range a b = map (grid_point a) (seq 0 (Z.to_nat ((b - a) / HOUR + 1))).
Proof. reflexivity. Qed.

Lemma nth_error_map_seq {A} (f : nat -> A) s n k :
  nth_error (map f (seq s n)) k
  = if (k <? n)%nat then Some (f (s + k)%nat) else None.
Proof.
  revert s k. induction n as [|n IH]; intros s k; simpl.
  - now destruct k.
  - destruct k as [|k]; simpl.
    + now rewrite Nat.add_0_r.
    + rewrite IH. change (S k <? S n)%nat with (k <? n)%nat.
      now rewrite Nat.add_succ_r.
Qed.

Lemma date_range_nth a b k t :
  nth_error (date_range a b) k = Some t -> t = grid_point a k.
Proof.
  rewrite date_range_unfold, nth_error_map_seq.
  destruct (k <? _)%nat; [|discriminate]. simpl. congruence.
Qed.

Lemma date_range_length a b :
  List.length (date_range a b) = Z.to_nat ((b - a) / HOUR + 1).
Proof. now rewrite date_range_unfold, length_map, length_seq. Qed.

Lemma date_range_In a b t :
  In t (date_range a b)
  <-> exists k : nat, t = grid_point a k /\ t <= b.
Proof.
  rewrite date_range_unfold, in_map_iff. unfold grid_point. split.
  - intros (k & <- & Hk). exists k. split; [reflexivity|].
    apply in_seq in Hk.
    assert (Z.of_nat k < (b - a) / HOUR + 1) as Hlt by lia.
    pose proof (Z.div_mod (b - a) HOUR).
    pose proof (Z.mod_pos_bound (b - a) HOUR HOUR_pos).
    unfold HOUR in *. lia.
  - intros (k & -> & Hle). exists k. split; [reflexivity|].
    apply in_seq. split; [lia|]. simpl.
    assert (Z.of_nat k <= (b - a) / HOUR) as Hk.
    { apply Z.div_le_lower_bound; [apply HOUR_pos | lia]. }
    lia.
Qed.

(** On a grid that starts on the hour, the points are the whole hours of the
    interval. *)
Lemma date_range_hours a b t :
  on_the_hour a ->
  In t (date_range a b) <-> (a <= t <= b /\ on_the_hour t).
Proof.
  intros Ha. rewrite date_range_In. unfold grid_point. split.
  - intros (k & -> & Hle). split; [unfold HOUR in *; lia|].
    apply on_the_hour_multiple in Ha. destruct Ha as [j ->].
    apply on_the_hour_multiple. exists (j + Z.of_nat k). lia.
  - intros ([H1 H2] & Ht).
    apply on_the_hour_multiple in Ha, Ht.
    destruct Ha as [j ->], Ht as [i ->].
    exists (Z.to_nat (i - j)). unfold HOUR in *. split; lia.
Qed.

Lemma removelast_map_seq {A} (f : nat -> A) s n :
  removelast (map f (seq s (S n))) = map f (seq s n).
Proof.
  rewrite seq_S, map_app. simpl. apply removelast_last.
Qed.

Lemma date_range_removelast a b :
  removelast (date_range a (b + HOUR)) = date_range a b.
Proof.
  rewrite !date_range_unfold.
  replace ((b + HOUR - a) / HOUR) with ((b - a) / HOUR + 1).
  2:{ replace (b + HOUR - a) with (b - a + 1 * HOUR) by lia.
      now rewrite Z.div_add by discriminate. }
  destruct (Z.le_gt_cases 0 ((b - a) / HOUR + 1)) as [H|H].
  - replace (Z.to_nat ((b - a) / HOUR + 1 + 1))
      with (S (Z.to_nat ((b - a) / HOUR + 1))) by lia.
    apply removelast_map_seq.
  - replace (Z.to_nat ((b - a) / HOUR + 1 + 1)) with 0%nat by lia.
    replace (Z.to_nat ((b - a) / HOUR + 1)) with 0%nat by lia.
    reflexivity.
Qed.

Lemma grid_sorted a s n :
  StronglySorted Z.lt (map (grid_point a) (seq s n)).
Proof.
  revert s. induction n as [|n IH]; intros s; simpl; constructor.
  - apply IH.
  - apply Forall_forall. intros t Ht. apply in_map_iff in Ht.
    destruct Ht as (k & <- & Hk). apply in_seq in Hk.
    unfold grid_point, HOUR. lia.
Qed.

Lemma date_range_sorted a b : StronglySorted Z.lt (date_range a b).
Proof. rewrite date_range_unfold. apply grid_sorted. Qed.

Lemma sorted_lt_NoDup l : StronglySorted Z.lt l -> NoDup l.
Proof.
  induction 1 as [|t l _ IH Hall]; constructor; [|exact IH].
  intros C. rewrite Forall_forall in Hall. specialize (Hall t C). lia.
Qed.

Lemma date_range_step a b i t t' :
  nth_error (date_range a b) i = Some t ->
  nth_error (date_range a b) (S i) = Some t' ->
  t' = t + HOUR.
Proof.
  intros H H'. apply date_range_nth in H, H'. subst.
  unfold grid_point. lia.
Qed.

Lemma date_range_first_last a b :
  a <= b ->
  hd_error (date_range a b) = Some a
  /\ (on_the_hour a -> on_the_hour b -> last (date_range a b) a = b).
Proof.
  intros Hab. rewrite date_range_unfold.
  assert (0 <= (b - a) / HOUR) as Hq
      by (apply Z.div_pos; [lia | apply HOUR_pos]).
  replace (Z.to_nat ((b - a) / HOUR + 1))
    with (S (Z.to_nat ((b - a) / HOUR))) by lia.
  split.
  - simpl. unfold grid_point. f_equal. simpl. lia.
  - intros Ha Hb. rewrite seq_S, map_app. cbn [map]. rewrite last_last.
    unfold grid_point.
    apply on_the_hour_multiple in Ha, Hb.
    destruct Ha as [j ->], Hb as [i ->].
    replace (HOUR * i - HOUR * j) with ((i - j) * HOUR) by lia.
    rewrite Z.div_mul by discriminate. rewrite Nat.add_0_l.
    unfold HOUR in *. lia.
Qed.

(** ** Resampling *)

Lemma set_Datetime_same r : set_Datetime r (Datetime r) = r.
Proof. now destruct r. Qed.

Lemma set_Meas_same r : set_Meas r (Meas r) = r.
Proof. now destruct r. Qed.

Lemma reindex_stamps obj idx : map Datetime (reindex obj idx) = idx.
Proof.
  unfold reindex. rewrite map_map. rewrite <- (map_id idx) at 2.
  apply map_ext. intros t.
  destruct (find (fun r => Datetime r =? t) obj) as [r|] eqn:E;
    [|reflexivity].
  apply find_some in E. destruct E as [_ E]. now apply Z.eqb_eq in E.
Qed.

Lemma relabel_nth obj idx k :
  nth_error (relabel obj idx) k
  = match nth_error obj k, nth_error idx k with
    | Some r, Some t => Some (set_Datetime r t)
    | _, _ => None
    end.
Proof.
  revert idx k. induction obj as [|r obj IH]; intros [|t idx] [|k];
    simpl; try reflexivity.
  - now destruct (nth_error obj k).
  - apply IH.
Qed.

Lemma relabel_stamps obj idx :
  List.length obj = List.length idx -> map Datetime (relabel obj idx) = idx.
Proof.
  revert idx. induction obj as [|r obj IH]; intros [|t idx] H;
    simpl in *; try congruence.
  f_equal. apply IH. congruence.
Qed.

Lemma all_hourly_nth ax t0 k t :
  all_hourly ax = true ->
  nth_error ax 0 = Some t0 -> nth_error ax k = Some t ->
  t = grid_point t0 k.
Proof.
  revert t0 k. induction ax as [|a ax IH]; intros t0 k Hh H0 Hk.
  - discriminate.
  - simpl in H0. injection H0 as ->. destruct k as [|k].
    + simpl in Hk. injection Hk as ->. unfold grid_point. simpl. lia.
    + destruct ax as [|b ax]; [now destruct k|].
      cbn [all_hourly] in Hh. apply andb_prop in Hh. destruct Hh as [Hb Hh].
      apply Z.eqb_eq in Hb.
      rewrite (IH b k Hh eq_refl Hk). unfold grid_point. lia.
Qed.

Lemma resampled_unfold dd :
  resampled dd
  = match sort_index dd with
    | [] => []
    | (r0 :: _) as obj =>
        let ax := map Datetime obj in
        let '(first, last) :=
          range_edges (ax_min (Datetime r0) ax) (ax_max (Datetime r0) ax) in
        let binner := date_range first last in
        let res_index := removelast binner in
        if inferred_freq_is_h ax
           && (List.length obj =? List.length res_index)%nat
        then relabel obj res_index
        else reindex obj res_index
    end.
Proof.
  unfold resampled, resample_h_asfreq.
  now destruct (sort_index dd).
Qed.

Lemma resample_Ok dd :
  dd <> [] -> resample_h_asfreq dd = Ok (resampled dd).
Proof.
  intros Hne. unfold resampled, resample_h_asfreq.
  destruct (sort_index dd) eqn:E; [|reflexivity].
  apply sort_index_nil in E. contradiction.
Qed.

Lemma resample_empty :
  resample_h_asfreq [] = Raise (ValueError_cannot_insert "Datetime").
Proof. reflexivity. Qed.

(** The two ways the resampler builds its result, with the bin edges
    computed. *)
Lemma resample_cases dd tmin tmax :
  dd <> [] -> is_min tmin dd -> is_max tmax dd ->
  let obj := sort_index dd in
  let idx := date_range (floor_h tmin) (floor_h tmax) in
  resampled dd = reindex obj idx
  \/ (all_hourly (map Datetime obj) = true
      /\ List.length obj = List.length idx
      /\ resampled dd = relabel obj idx).
Proof.
  intros Hne [Hmin_in Hmin] [Hmax_in Hmax] obj idx.
  rewrite resampled_unfold. fold obj.
  destruct obj as [|r0 tl] eqn:Eobj.
  { apply sort_index_nil in Eobj. contradiction. }
  cbv beta iota zeta.
  assert (forall r, In r (r0 :: tl) <-> In r dd) as Hperm.
  { intros r. rewrite <- Eobj. apply sort_index_In. }
  assert (ax_min (Datetime r0) (map Datetime (r0 :: tl)) = tmin) as ->.
  { apply Z.le_antisymm.
    - apply ax_min_is_min. apply in_map_iff in Hmin_in.
      destruct Hmin_in as (r & <- & Hr). apply in_map. now apply Hperm.
    - pose proof (ax_min_In r0 tl) as H. apply in_map_iff in H.
      destruct H as (r & <- & Hr). apply Hmin. now apply Hperm. }
  assert (ax_max (Datetime r0) (map Datetime (r0 :: tl)) = tmax) as ->.
  { apply Z.le_antisymm.
    - pose proof (ax_max_In r0 tl) as H. apply in_map_iff in H.
      destruct H as (r & <- & Hr). apply Hmax. now apply Hperm.
    - apply ax_max_is_max. apply in_map_iff in Hmax_in.
      destruct Hmax_in as (r & <- & Hr). apply in_map. now apply Hperm. }
  rewrite range_edges_floor, date_range_removelast. fold idx.
  destruct (inferred_freq_is_h (map Datetime (r0 :: tl))
            && (List.length (r0 :: tl) =? List.length idx)%nat) eqn:E.
  - right. apply andb_prop in E. destruct E as [E1 E2].
    unfold inferred_freq_is_h in E1. apply andb_prop in E1.
    apply Nat.eqb_eq in E2. tauto.
  - now left.
Qed.

Lemma is_min_le_max tmin tmax dd :
  is_min tmin dd -> is_max tmax dd -> tmin <= tmax.
Proof.
  intros [H _] [_ M]. apply in_map_iff in H.
  destruct H as (r & <- & Hr). now apply M.
Qed.

(** The index of the resampled frame is the hourly grid from the floor of
    the first stamp to the floor of the last. *)
Lemma resample_stamps dd tmin tmax :
  dd <> [] -> is_min tmin dd -> is_max tmax dd ->
  map Datetime (resampled dd)
  = date_range (floor_h tmin) (floor_h tmax).
Proof.
  intros Hne Hmin Hmax.
  destruct (resample_cases dd tmin tmax Hne Hmin Hmax) as [->|(_ & L & ->)].
  - apply reindex_stamps.
  - now apply relabel_stamps.
Qed.

(** In an hourly axis the head is the least stamp. *)
Lemma hourly_head_is_min dd tmin r0 tl :
  is_min tmin dd -> sort_index dd = r0 :: tl ->
  all_hourly (map Datetime (r0 :: tl)) = true ->
  Datetime r0 = tmin.
Proof.
  intros [Hin Hmin] E Hh. apply Z.le_antisymm.
  - apply in_map_iff in Hin. destruct Hin as (r & <- & Hr).
    apply sort_index_In in Hr. rewrite E in Hr.
    apply In_nth_error in Hr. destruct Hr as [k Hk].
    assert (nth_error (map Datetime (r0 :: tl)) k = Some (Datetime r)) as Hk'
        by now rewrite nth_error_map, Hk.
    rewrite (all_hourly_nth _ (Datetime r0) k _ Hh eq_refl Hk').
    unfold grid_point, HOUR. lia.
  - apply Hmin. apply sort_index_In. rewrite E. now left.
Qed.

(** After relabelling, a row that sits at the stamp of an original row is
    that row. *)
Lemma relabel_row dd tmin tmax r k x :
  is_min tmin dd ->
  all_hourly (map Datetime (sort_index dd)) = true ->
  In r dd ->
  nth_error
    (relabel (sort_index dd) (date_range (floor_h tmin) (floor_h tmax))) k
  = Some x ->
  Datetime x = Datetime r ->
  nth_error (sort_index dd) k = Some r /\ x = r.
Proof.
  intros Hmin Hh Hr Hx E.
  rewrite relabel_nth in Hx.
  destruct (nth_error (sort_index dd) k) as [r'|] eqn:Ek; [|discriminate].
  destruct (nth_error (date_range _ _) k) as [t|] eqn:Et; [|discriminate].
  injection Hx as <-. simpl in E. subst t.
  apply date_range_nth in Et.
  destruct (sort_index dd) as [|r0 tl] eqn:Eobj; [now destruct k|].
  pose proof (hourly_head_is_min dd tmin r0 tl Hmin Eobj Hh) as H0.
  assert (Datetime r' = grid_point tmin k) as Hr'.
  { apply (all_hourly_nth (map Datetime (r0 :: tl)) tmin k); auto.
    - simpl. now rewrite H0.
    - now rewrite nth_error_map, Ek. }
  assert (In r (r0 :: tl)) as Hin by (rewrite <- Eobj; now apply sort_index_In).
  apply In_nth_error in Hin. destruct Hin as [j Hj].
  assert (Datetime r = grid_point tmin j) as Hrj.
  { apply (all_hourly_nth (map Datetime (r0 :: tl)) tmin j); auto.
    - simpl. now rewrite H0.
    - now rewrite nth_error_map, Hj. }
  pose proof (floor_h_spec tmin) as [B _].
  unfold grid_point, HOUR in *.
  assert (k = j) as -> by lia.
  assert (r' = r) as -> by congruence.
  split; [reflexivity | apply set_Datetime_same].
Qed.

Lemma frame_extremes dd :
  dd <> [] -> exists tmin tmax, is_min tmin dd /\ is_max tmax dd.
Proof.
  intros Hne. destruct (sort_index dd) as [|r0 tl] eqn:Eobj.
  { apply sort_index_nil in Eobj. contradiction. }
  assert (forall y, In y (r0 :: tl) <-> In y dd) as Hperm.
  { intros y. rewrite <- Eobj. apply sort_index_In. }
  exists (ax_min (Datetime r0) (map Datetime (r0 :: tl))),
         (ax_max (Datetime r0) (map Datetime (r0 :: tl))).
  split; split.
  - pose proof (ax_min_In r0 tl) as H. apply in_map_iff in H.
    destruct H as (y & Ey & Hy). apply in_map_iff. exists y.
    split; [exact Ey | now apply Hperm].
  - intros y Hy. apply ax_min_is_min. apply in_map. now apply Hperm.
  - pose proof (ax_max_In r0 tl) as H. apply in_map_iff in H.
    destruct H as (y & Ey & Hy). apply in_map_iff. exists y.
    split; [exact Ey | now apply Hperm].
  - intros y Hy. apply ax_max_is_max. apply in_map. now apply Hperm.
Qed.

Lemma resample_row_at dd r x :
  NoDup (map Datetime dd) -> In r dd ->
  In x (resampled dd) -> Datetime x = Datetime r -> x = r.
Proof.
  intros ND Hr Hx E.
  assert (dd <> []) as Hne by (intros ->; contradiction).
  destruct (frame_extremes dd Hne) as (tmin & tmax & Hmin & Hmax).
  destruct (resample_cases dd tmin tmax Hne Hmin Hmax) as [R|(Hh & L & R)];
    rewrite R in Hx.
  - unfold reindex in Hx. apply in_map_iff in Hx. destruct Hx as (t & Ex & _).
    destruct (find (fun y => Datetime y =? t) (sort_index dd)) as [y|] eqn:F.
    + apply find_some in F. destruct F as [Hy F]. apply Z.eqb_eq in F.
      subst x. apply (NoDup_map_inj Datetime dd); auto.
      now apply sort_index_In.
    + subst x. simpl in E. subst t.
      assert (In r (sort_index dd)) as Hin by now apply sort_index_In.
      pose proof (find_none _ _ F r Hin) as C. simpl in C.
      rewrite Z.eqb_refl in C. discriminate.
  - apply In_nth_error in Hx. destruct Hx as [k Hk].
    now destruct (relabel_row dd tmin tmax r k x Hmin Hh Hr Hk E).
Qed.

(** A row on the hour keeps its place on the grid. *)
Lemma resample_keeps_hour_row dd r :
  NoDup (map Datetime dd) -> In r dd -> on_the_hour (Datetime r) ->
  In r (resampled dd).
Proof.
  intros ND Hr Hh.
  assert (dd <> []) as Hne by (intros ->; contradiction).
  destruct (frame_extremes dd Hne) as (tmin & tmax & Hmin & Hmax).
  assert (In (Datetime r) (date_range (floor_h tmin) (floor_h tmax))) as Hg.
  { apply date_range_hours; [apply floor_h_spec|].
    destruct Hmin as [_ Hmin], Hmax as [_ Hmax].
    specialize (Hmin r Hr). specialize (Hmax r Hr).
    pose proof (floor_h_spec tmin). pose proof (floor_h_mono _ _ Hmax).
    rewrite (floor_h_fixed _ Hh) in *. repeat split; try lia. exact Hh. }
  destruct (resample_cases dd tmin tmax Hne Hmin Hmax) as [R|(Hho & L & R)];
    rewrite R.
  - unfold reindex. apply in_map_iff. exists (Datetime r). split; [|exact Hg].
    destruct (find (fun y => Datetime y =? Datetime r) (sort_index dd))
      as [y|] eqn:F.
    + apply find_some in F. destruct F as [Hy F]. apply Z.eqb_eq in F.
      apply (NoDup_map_inj Datetime dd); auto. now apply sort_index_In.
    + assert (In r (sort_index dd)) as Hin by now apply sort_index_In.
      pose proof (find_none _ _ F r Hin) as C. simpl in C.
      rewrite Z.eqb_refl in C. discriminate.
  - assert (In r (sort_index dd)) as Hin by now apply sort_index_In.
    apply In_nth_error in Hin. destruct Hin as [j Hj].
    assert (j < List.length (sort_index dd))%nat as Hlt
        by (apply nth_error_Some; congruence).
    rewrite L in Hlt. apply nth_error_Some in Hlt.
    destruct (nth_error (date_range (floor_h tmin) (floor_h tmax)) j)
      as [t|] eqn:Et; [|congruence].
    pose proof (date_range_nth _ _ _ _ Et) as Etv.
    destruct (sort_index dd) as [|r0 tl] eqn:Eobj; [now destruct j|].
    pose proof (hourly_head_is_min dd tmin r0 tl Hmin Eobj Hho) as H0.
    assert (Datetime r = grid_point tmin j) as Hrj.
    { apply (all_hourly_nth (map Datetime (r0 :: tl)) tmin j); auto.
      - simpl. now rewrite H0.
      - now rewrite nth_error_map, Hj. }
    assert (on_the_hour tmin) as Hm.
    { apply on_the_hour_multiple in Hh. destruct Hh as [i Hi].
      apply on_the_hour_multiple. exists (i - Z.of_nat j).
      unfold grid_point in Hrj. lia. }
    rewrite (floor_h_fixed _ Hm) in Etv.
    apply (nth_error_In _ j). rewrite relabel_nth, Hj, Et.
    f_equal. rewrite Etv, <- Hrj. apply set_Datetime_same.
Qed.

(** ** Interpolation *)

Lemma valid_samples_In i ys x y :
  In (x, y) (valid_samples i ys)
  <-> exists k : nat, x = i + Z.of_nat k /\ nth_error ys k = Some (Some y).
Proof.
  revert i. induction ys as [|[y0|] ys IH]; intros i; simpl.
  - split; [tauto|]. intros (k & _ & H). now destruct k.
  - rewrite IH. split.
    + intros [E|(k & -> & Hk)].
      * injection E as <- <-. exists 0%nat. split; [lia | reflexivity].
      * exists (S k). split; [lia | exact Hk].
    + intros ([|k] & -> & Hk); simpl in Hk.
      * left. injection Hk as ->. f_equal. lia.
      * right. exists k. split; [lia | exact Hk].
  - rewrite IH. split.
    + intros (k & -> & Hk). exists (S k). split; [lia | exact Hk].
    + intros ([|k] & -> & Hk); simpl in Hk; [discriminate|].
      exists k. split; [lia | exact Hk].
Qed.

Lemma valid_samples_sorted i ys : StronglySorted before (valid_samples i ys).
Proof.
  revert i. induction ys as [|[y0|] ys IH]; intros i; simpl;
    [constructor | | apply IH].
  constructor; [apply IH|]. apply Forall_forall. intros [x y] H.
  apply valid_samples_In in H. destruct H as (k & -> & _).
  unfold before. simpl. lia.
Qed.

Lemma fill_from_length i fv pts x0 y0 ys :
  List.length (fill_from i fv pts x0 y0 ys) = List.length ys.
Proof.
  revert i. induction ys as [|[y|] ys IH]; intros i; simpl;
    [reflexivity | now rewrite IH | now rewrite IH].
Qed.

Lemma fill_from_nth i fv pts x0 y0 ys k :
  nth_error (fill_from i fv pts x0 y0 ys) k
  = match nth_error ys k with
    | Some (Some y) => Some (Some y)
    | Some None =>
        Some (if i + Z.of_nat k <? fv then None
              else Some (np_interp_from (i + Z.of_nat k) x0 y0 pts))
    | None => None
    end.
Proof.
  revert i k. induction ys as [|[y|] ys IH]; intros i [|k]; simpl;
    try reflexivity.
  - rewrite IH. replace (i + 1 + Z.of_nat k) with (i + Z.pos (Pos.of_succ_nat k))
      by lia. reflexivity.
  - now rewrite Z.add_0_r.
  - rewrite IH. replace (i + 1 + Z.of_nat k) with (i + Z.pos (Pos.of_succ_nat k))
      by lia. reflexivity.
Qed.

Lemma interpolate_length ys :
  List.length (interpolate_linear ys) = List.length ys.
Proof.
  unfold interpolate_linear.
  destruct (valid_samples 0 ys) as [|[x0 y0] pts]; [reflexivity|].
  apply fill_from_length.
Qed.

(** Interpolation never overwrites a number. *)
Lemma interpolate_known ys k v :
  nth_error ys k = Some (Some v) ->
  nth_error (interpolate_linear ys) k = Some (Some v).
Proof.
  intros H. unfold interpolate_linear.
  destruct (valid_samples 0 ys) as [|[x0 y0] pts]; [exact H|].
  now rewrite fill_from_nth, H.
Qed.

(** Cells before the first number stay missing. *)
Lemma interpolate_leading ys k :
  (forall j, (j <= k)%nat -> nth_error ys j = Some None) ->
  nth_error (interpolate_linear ys) k = Some None.
Proof.
  intros H. unfold interpolate_linear.
  destruct (valid_samples 0 ys) as [|[x0 y0] pts] eqn:E; [now apply H|].
  rewrite fill_from_nth, (H k (Nat.le_refl k)).
  assert (In (x0, y0) (valid_samples 0 ys)) as Hin by (rewrite E; now left).
  apply valid_samples_In in Hin. destruct Hin as (j & -> & Hj).
  destruct (Z.ltb_spec (0 + Z.of_nat k) (0 + Z.of_nat j)); [reflexivity|].
  rewrite H in Hj by lia. discriminate.
Qed.

Lemma np_interp_beyond k l v x0 y0 pts :
  StronglySorted before ((x0, y0) :: pts) ->
  In (l, v) ((x0, y0) :: pts) ->
  (forall x y, In (x, y) ((x0, y0) :: pts) -> x <= l) ->
  l < k ->
  np_interp_from k x0 y0 pts = v.
Proof.
  revert x0 y0. induction pts as [|[x1 y1] pts IH]; intros x0 y0 S Hin Hle Hk.
  - simpl. destruct Hin as [E|[]]. congruence.
  - simpl. pose proof (Hle x1 y1 (or_intror (or_introl eq_refl))) as H1.
    destruct (Z.ltb_spec k x1); [lia|].
    inversion S as [|? ? S' Hall]; subst.
    apply IH; auto.
    + destruct Hin as [E|Hin]; [|exact Hin].
      injection E as <- <-. rewrite Forall_forall in Hall.
      specialize (Hall (x1, y1) (or_introl eq_refl)).
      unfold before in Hall. simpl in Hall. lia.
    + intros x y Hxy. apply (Hle x y). now right.
Qed.

(** Cells after the last number take that number. *)
Lemma interpolate_trailing ys l v k :
  nth_error ys l = Some (Some v) ->
  (forall j, (l < j)%nat -> (j < List.length ys)%nat ->
             nth_error ys j = Some None) ->
  (l < k)%nat -> (k < List.length ys)%nat ->
  nth_error (interpolate_linear ys) k = Some (Some v).
Proof.
  intros Hl Hnone Hlk Hk. unfold interpolate_linear.
  assert (In (Z.of_nat l, v) (valid_samples 0 ys)) as Hin.
  { apply valid_samples_In. exists l. split; [lia | exact Hl]. }
  pose proof (valid_samples_sorted 0 ys) as S.
  assert (forall x y, In (x, y) (valid_samples 0 ys) -> x <= Z.of_nat l) as Hle.
  { intros x y H. apply valid_samples_In in H. destruct H as (j & -> & Hj).
    destruct (Nat.le_gt_cases j l) as [|Hgt]; [lia|].
    rewrite Hnone in Hj; [discriminate | exact Hgt |].
    apply nth_error_Some. congruence. }
  destruct (valid_samples 0 ys) as [|[x0 y0] pts]; [contradiction|].
  rewrite fill_from_nth, (Hnone k Hlk Hk).
  pose proof (Hle x0 y0 (or_introl eq_refl)) as H0.
  destruct (Z.ltb_spec (0 + Z.of_nat k) x0); [lia|].
  do 2 f_equal. apply (np_interp_beyond _ (Z.of_nat l)); auto. lia.
Qed.

(** ** Writing the column back *)

Lemma assign_Meas_nth df ys k :
  nth_error (assign_Meas df ys) k
  = match nth_error df k, nth_error ys k with
    | Some r, Some y => Some (set_Meas r y)
    | _, _ => None
    end.
Proof.
  revert ys k. induction df as [|r df IH]; intros [|y ys] [|k];
    simpl; try reflexivity.
  - now destruct (nth_error df k).
  - apply IH.
Qed.

Lemma assign_Meas_stamps df ys :
  List.length df = List.length ys ->
  map Datetime (assign_Meas df ys) = map Datetime df.
Proof.
  revert ys. induction df as [|r df IH]; intros [|y ys] H;
    simpl in *; try congruence.
  f_equal. apply IH. congruence.
Qed.

Lemma assign_Meas_column df ys :
  List.length df = List.length ys -> map Meas (assign_Meas df ys) = ys.
Proof.
  revert ys. induction df as [|r df IH]; intros [|y ys] H;
    simpl in *; try congruence.
  f_equal. apply IH. congruence.
Qed.

(** ** The normaliser as a whole *)

Lemma normaliser_returns df :
  df <> [] -> fill_missing_hours_and_interpolate df = Ok (normalised df).
Proof.
  intros Hne. unfold fill_missing_hours_and_interpolate.
  now rewrite (resample_Ok _ (drop_duplicates_nonempty df Hne)).
Qed.

Lemma normaliser_empty :
  fill_missing_hours_and_interpolate []
  = Raise (ValueError_cannot_insert "Datetime").
Proof. reflexivity. Qed.

Lemma normaliser_Ok df out :
  fill_missing_hours_and_interpolate df = Ok out ->
  df <> [] /\ out = normalised df.
Proof.
  intros H. destruct df as [|r df]; [discriminate|].
  assert (r :: df <> []) as Hne by discriminate.
  rewrite (normaliser_returns _ Hne) in H. injection H as <-. auto.
Qed.

Lemma normalised_stamps df :
  map Datetime (normalised df)
  = map Datetime (resampled (drop_duplicates df)).
Proof.
  apply assign_Meas_stamps. now rewrite interpolate_length, length_map.
Qed.

Lemma normalised_column df :
  map Meas (normalised df) = interpolate_linear (grid_column df).
Proof.
  unfold grid_column. apply assign_Meas_column.
  now rewrite interpolate_length, length_map.
Qed.

(** A resampled row that holds a number passes through unchanged, and a
    normalised row differs from its resampled row in the number only. *)
Lemma normalised_row df x :
  In x (normalised df) ->
  exists r, In r (resampled (drop_duplicates df))
            /\ Datetime x = Datetime r
            /\ (forall v, Meas r = Some v -> x = r).
Proof.
  intros H. apply In_nth_error in H. destruct H as [k Hk].
  unfold normalised in Hk. rewrite assign_Meas_nth in Hk.
  destruct (nth_error (resampled (drop_duplicates df)) k)
    as [r|] eqn:Er; [|discriminate].
  destruct (nth_error (interpolate_linear _) k) as [y|] eqn:Ey;
    [|discriminate].
  injection Hk as <-. exists r. split; [now apply (nth_error_In _ k)|].
  split; [reflexivity|]. intros v Hv.
  assert (nth_error (map Meas (resampled (drop_duplicates df))) k
          = Some (Some v)) as Hc
      by (rewrite nth_error_map, Er; simpl; now rewrite Hv).
  apply interpolate_known in Hc. rewrite Hc in Ey. injection Ey as <-.
  rewrite <- Hv. apply set_Meas_same.
Qed.

Lemma normalised_keeps df r v :
  In r (resampled (drop_duplicates df)) -> Meas r = Some v ->
  In r (normalised df).
Proof.
  intros H Hv. apply In_nth_error in H. destruct H as [k Hk].
  assert (nth_error (map Meas (resampled (drop_duplicates df))) k
          = Some (Some v)) as Hc
      by (rewrite nth_error_map, Hk; simpl; now rewrite Hv).
  apply interpolate_known in Hc.
  apply (nth_error_In _ k). unfold normalised.
  rewrite assign_Meas_nth, Hk, Hc. f_equal.
  rewrite <- Hv. apply set_Meas_same.
Qed.

Lemma is_min_dedup t df : is_min t df -> is_min t (drop_duplicates df).
Proof.
  intros [H M]. split.
  - now apply drop_duplicates_stamps.
  - intros r Hr. apply M. now apply drop_duplicates_In.
Qed.

Lemma is_max_dedup t df : is_max t df -> is_max t (drop_duplicates df).
Proof.
  intros [H M]. split.
  - now apply drop_duplicates_stamps.
  - intros r Hr. apply M. now apply drop_duplicates_In.
Qed.

Lemma normalised_grid df tmin tmax :
  df <> [] -> is_min tmin df -> is_max tmax df ->
  map Datetime (normalised df) = date_range (floor_h tmin) (floor_h tmax).
Proof.
  intros Hne Hmin Hmax. rewrite normalised_stamps.
  apply resample_stamps.
  - now apply drop_duplicates_nonempty.
  - now apply is_min_dedup.
  - now apply is_max_dedup.
Qed.


(** ** The claims about the normaliser *)

(** C1, amended.  After normalisation of a series with at least one row
    the numeric field is undefined at every grid position before its first
    known value; the grid positions after its last known value are not left
    undefined but carry the last known value forward. *)
Theorem C1_leading_gap_kept_trailing_gap_filled (df : DataFrame) :
  df <> [] ->
  exists out,
    fill_missing_hours_and_interpolate df = Ok out
    /\ List.length (map Meas out) = List.length (grid_column df)
    /\ (forall k,
           (forall j, (j <= k)%nat -> nth_error (grid_column df) j = Some None) ->
           nth_error (map Meas out) k = Some None)
    /\ (forall l v k,
           nth_error (grid_column df) l = Some (Some v) ->
           (forall j, (l < j)%nat -> (j < List.length (grid_column df))%nat ->
                      nth_error (grid_column df) j = Some None) ->
           (l < k)%nat -> (k < List.length (grid_column df))%nat ->
           nth_error (map Meas out) k = Some (Some v)).
Proof.
  intros Hne. exists (normalised df). rewrite normalised_column.
  split; [now apply normaliser_returns|]. split; [apply interpolate_length|].
  split.
  - apply interpolate_leading.
  - apply interpolate_trailing.
Qed.

Lemma C1_leading_gap_kept_trailing_gap_filled_witness :
  exists out,
    fill_missing_hours_and_interpolate
      [reading 0 None; reading 7200 (Some (7#1)); reading 12600 None] = Ok out
    /\ nth_error (map Meas out) 1 = Some None
    /\ nth_error (map Meas out) 3 = Some (Some (7#1)).
Proof.
  destruct (C1_leading_gap_kept_trailing_gap_filled
              [reading 0 None; reading 7200 (Some (7#1)); reading 12600 None])
    as (out & E & _ & Hlead & Htrail).
  - discriminate.
  - exists out. split; [exact E|]. split.
    + apply Hlead. intros [|[|j]] Hj; try lia; reflexivity.
    + apply (Htrail 2%nat (7#1) 3%nat).
      * reflexivity.
      * intros [|[|[|[|j]]]] H1 H2; try lia; try reflexivity.
        simpl in H2. lia.
      * lia.
      * simpl. lia.
Defined.

(** C1 as stated fails: readings at 00:00 (value 1) and 01:30 give the grid
    00:00, 01:00; the position 01:00 lies after the last known value and yet
    holds 1. *)
Lemma C1_counterexample :
  exists out,
    fill_missing_hours_and_interpolate
      [reading 0 (Some (1#1)); reading 5400 (Some (5#1))] = Ok out
    /\ grid_column [reading 0 (Some (1#1)); reading 5400 (Some (5#1))]
       = [Some (1#1); None]
    /\ nth_error (map Meas out) 1 = Some (Some (1#1))
    /\ nth_error (map Meas out) 1 <> Some None.
Proof.
  eexists. split; [reflexivity|]. split; [reflexivity|].
  split; [reflexivity | discriminate].
Qed.

(** Values from hour 2 onward only: hours 0 and 1 stay undefined. *)
Example no_backward_extrapolation :
  fill_missing_hours_and_interpolate
    [reading 0 None; reading 7200 (Some (7#1)); reading 10800 (Some (8#1))]
  = Ok [reading 0 None; nan_row 3600;
        reading 7200 (Some (7#1)); reading 10800 (Some (8#1))].
Proof. reflexivity. Qed.

(** C3, amended.  For a non-empty series the timestamps of the output are
    strictly increasing, one hour apart, without duplicates, and cover
    exactly the whole hours from floor(min_ts) to floor(max_ts). *)
Theorem C3_hourly_grid (df : DataFrame) (tmin tmax : Z) :
  df <> [] -> is_min tmin df -> is_max tmax df ->
  exists out,
    fill_missing_hours_and_interpolate df = Ok out
    /\ map Datetime out = date_range (floor_h tmin) (floor_h tmax)
    /\ StronglySorted Z.lt (map Datetime out)
    /\ NoDup (map Datetime out)
    /\ (forall i t t',
           nth_error (map Datetime out) i = Some t ->
           nth_error (map Datetime out) (S i) = Some t' ->
           t' = t + HOUR)
    /\ (forall t, In t (map Datetime out)
                  <-> (floor_h tmin <= t <= floor_h tmax /\ on_the_hour t))
    /\ hd_error (map Datetime out) = Some (floor_h tmin)
    /\ last (map Datetime out) (floor_h tmin) = floor_h tmax.
Proof.
  intros Hne Hmin Hmax. exists (normalised df).
  rewrite (normalised_grid df tmin tmax Hne Hmin Hmax).
  pose proof (floor_h_mono _ _ (is_min_le_max _ _ _ Hmin Hmax)) as Hle.
  pose proof (date_range_first_last _ _ Hle) as [Hhd Hlast].
  split; [now apply normaliser_returns|].
  repeat split.
  - apply date_range_sorted.
  - apply sorted_lt_NoDup, date_range_sorted.
  - apply date_range_step.
  - apply date_range_hours in H; [lia | apply floor_h_spec].
  - apply date_range_hours in H; [lia | apply floor_h_spec].
  - apply date_range_hours in H; [tauto | apply floor_h_spec].
  - intros H. apply date_range_hours; [apply floor_h_spec | tauto].
  - exact Hhd.
  - apply Hlast; apply floor_h_spec.
Qed.

Lemma C3_hourly_grid_witness :
  exists out,
    fill_missing_hours_and_interpolate
      [reading 1800 (Some (1#1)); reading 9000 (Some (5#1))] = Ok out
    /\ map Datetime out = [0; 3600; 7200].
Proof.
  destruct (C3_hourly_grid
              [reading 1800 (Some (1#1)); reading 9000 (Some (5#1))]
              1800 9000) as (out & E & G & _).
  - discriminate.
  - split; [simpl; tauto|]. intros r [<-|[<-|[]]]; simpl; lia.
  - split; [simpl; tauto|]. intros r [<-|[<-|[]]]; simpl; lia.
  - exists out. split; [exact E|]. rewrite G. reflexivity.
Defined.

(** C3 as stated fails: readings at 00:00 and 01:30 give the grid
    00:00, 01:00, which stops at floor(max_ts) and does not reach
    ceil(max_ts) = 02:00. *)
Lemma C3_counterexample :
  exists out,
    fill_missing_hours_and_interpolate
      [reading 0 (Some (1#1)); reading 5400 (Some (5#1))] = Ok out
    /\ map Datetime out = [0; 3600]
    /\ date_range (floor_h 0) (ceil_h 5400) = [0; 3600; 7200]
    /\ map Datetime out <> date_range (floor_h 0) (ceil_h 5400).
Proof.
  eexists. split; [reflexivity|]. split; [reflexivity|].
  split; [reflexivity | discriminate].
Qed.

(** C9.  A row that survives deduplication, lies exactly on an hour
    boundary and holds a number is found unchanged in the output, and it is
    the only output row at its timestamp. *)
Theorem C9_known_value_unchanged (df : DataFrame) (r : Row) (v : Q) :
  In r (drop_duplicates df) ->
  on_the_hour (Datetime r) ->
  Meas r = Some v ->
  exists out,
    fill_missing_hours_and_interpolate df = Ok out
    /\ In r out
    /\ (forall x, In x out -> Datetime x = Datetime r -> Meas x = Some v).
Proof.
  intros Hr Hh Hv. exists (normalised df).
  assert (df <> []) as Hne by (intros ->; destruct Hr).
  split; [now apply normaliser_returns|].
  pose proof (drop_duplicates_NoDup df) as ND. split.
  - apply (normalised_keeps df r v); [|exact Hv].
    now apply resample_keeps_hour_row.
  - intros x Hx E. apply normalised_row in Hx.
    destruct Hx as (r' & Hr' & E' & Hsame).
    assert (r' = r) as -> by (apply (resample_row_at _ r r' ND Hr Hr'); congruence).
    now rewrite (Hsame v Hv).
Qed.

Lemma C9_known_value_unchanged_witness :
  exists out,
    fill_missing_hours_and_interpolate
      [reading 3600 (Some (4#1)); reading 9000 None;
       reading 14400 (Some (6#1))] = Ok out
    /\ In (reading 3600 (Some (4#1))) out.
Proof.
  destruct (C9_known_value_unchanged
              [reading 3600 (Some (4#1)); reading 9000 None;
               reading 14400 (Some (6#1))]
              (reading 3600 (Some (4#1))) (4#1)) as (out & E & H & _).
  - simpl. tauto.
  - reflexivity.
  - reflexivity.
  - exists out. split; assumption.
Defined.






(** ** Strings *)

Lemma length_append (p s : string) :
  String.length (p ++ s)%string = (String.length p + String.length s)%nat.
Proof. induction p as [|c p IH]; simpl; [reflexivity | now rewrite IH]. Qed.

Lemma substring_whole (s : string) : substring 0 (String.length s) s = s.
Proof. induction s as [|c s IH]; simpl; [reflexivity | now rewrite IH]. Qed.

Lemma substring_skip (p s : string) (m : nat) :
  substring (String.length p) m (p ++ s)%string = substring 0 m s.
Proof. induction p as [|c p IH]; simpl; [reflexivity | exact IH]. Qed.

Lemma substring_split (s : string) (k : nat) :
  (k <= String.length s)%nat ->
  s = (substring 0 k s ++ substring k (String.length s - k) s)%string.
Proof.
  revert k. induction s as [|c s IH]; intros [|k] H; simpl in *.
  - reflexivity.
  - lia.
  - now rewrite substring_whole.
  - f_equal. apply IH. lia.
Qed.

(** [endswith] is the suffix relation. *)
Lemma endswith_suffix (s suffix : string) :
  endswith s suffix = true <-> exists p, s = (p ++ suffix)%string.
Proof.
  unfold endswith. split.
  - intros H. apply andb_prop in H. destruct H as [Hle He].
    apply Nat.leb_le in Hle. apply String.eqb_eq in He.
    exists (substring 0 (String.length s - String.length suffix) s).
    pose proof (substring_split s (String.length s - String.length suffix))
      as Hs.
    replace (String.length s - (String.length s - String.length suffix))%nat
      with (String.length suffix) in Hs by lia.
    rewrite He in Hs. apply Hs. lia.
  - intros [p ->]. rewrite length_append. apply andb_true_intro. split.
    + apply Nat.leb_le. lia.
    + replace (String.length p + String.length suffix - String.length suffix)%nat
        with (String.length p) by lia.
      rewrite substring_skip, substring_whole. apply String.eqb_refl.
Qed.

Lemma append_inv_length (p q s t : string) :
  (p ++ s)%string = (q ++ t)%string -> String.length s = String.length t ->
  s = t.
Proof.
  revert q. induction p as [|c p IH]; intros [|d q] E L; simpl in *.
  - exact E.
  - exfalso. apply (f_equal String.length) in E. simpl in E.
    rewrite length_append in E. lia.
  - exfalso. apply (f_equal String.length) in E. simpl in E.
    rewrite length_append in E. lia.
  - injection E as _ E. now apply (IH q).
Qed.

(** ** The error monad *)

Lemma mapM_Ok {A B} (f : A -> PyResult B) l bs :
  mapM f l = Ok bs <-> Forall2 (fun a b => f a = Ok b) l bs.
Proof.
  revert bs. induction l as [|a l IH]; intros bs; simpl.
  - split.
    + intros E. injection E as <-. constructor.
    + intros H. now inversion H.
  - destruct (f a) as [b|e] eqn:Ea; simpl.
    + destruct (mapM f l) as [bs'|e] eqn:El; simpl.
      * split.
        -- intros E. injection E as <-. constructor; [exact Ea|].
           now apply IH.
        -- intros H. inversion H as [|? b0 ? bs0 Hb Hl]; subst.
           apply IH in Hl. congruence.
      * split; [discriminate|].
        intros H. inversion H as [|? b0 ? bs0 Hb Hl]; subst.
        apply IH in Hl. discriminate.
    + split; [discriminate|].
      intros H. inversion H; subst. congruence.
Qed.

Lemma mapM_Raise {A B} (f : A -> PyResult B) l e :
  mapM f l = Raise e -> exists a, In a l /\ f a = Raise e.
Proof.
  induction l as [|a l IH]; simpl; [discriminate|].
  destruct (f a) as [b|e'] eqn:Ea; simpl.
  - destruct (mapM f l) as [bs'|e''] eqn:El; simpl; [discriminate|].
    intros E. injection E as ->. destruct (IH eq_refl) as (x & Hx & Ex).
    exists x. split; [now right | exact Ex].
  - intros E. injection E as ->. exists a. split; [now left | exact Ea].
Qed.

Lemma mapM_total {A B} (f : A -> PyResult B) l :
  (forall a, In a l -> exists b, f a = Ok b) -> exists bs, mapM f l = Ok bs.
Proof.
  induction l as [|a l IH]; intros H; simpl.
  - now exists [].
  - destruct (H a (or_introl eq_refl)) as [b ->].
    destruct IH as [bs ->]; [intros x Hx; apply H; now right|].
    now exists (b :: bs).
Qed.

Lemma Forall2_concat {A B} (R : A -> B -> Prop) ls ms :
  Forall2 (Forall2 R) ls ms -> Forall2 R (List.concat ls) (List.concat ms).
Proof.
  induction 1 as [|l m ls ms H _ IH]; simpl; [constructor|].
  now apply Forall2_app.
Qed.

Lemma Forall2_In_left {A B} (R : A -> B -> Prop) l m a :
  Forall2 R l m -> In a l -> exists b, In b m /\ R a b.
Proof.
  induction 1 as [|x y l m Hxy _ IH]; simpl; [tauto|].
  intros [->|Ha].
  - exists y. auto.
  - destruct (IH Ha) as (b & Hb & Rb). exists b. auto.
Qed.

Lemma Forall2_compose {A B C} (R : A -> B -> Prop) (S : B -> C -> Prop)
      (T : A -> C -> Prop) l m n :
  (forall a b c, R a b -> S b c -> T a c) ->
  Forall2 R l m -> Forall2 S m n -> Forall2 T l n.
Proof.
  intros H F. revert n. induction F as [|a b l m Rab _ IH]; intros n G.
  - inversion G. constructor.
  - inversion G as [|? c ? n' Sbc G']; subst.
    constructor; [now apply (H a b c) | now apply IH].
Qed.

(** ** Facts about the loader *)

Section LoaderFacts.

Variable strptime_HMS : string -> option TimeOfDay.
Variable to_datetime : string -> option Z.
Variable listdir : string -> option Listing.

Lemma parse_time_Ok r rt :
  parse_time strptime_HMS r = Ok rt ->
  exists t, rt = (r, t) /\ strptime_HMS (raw_Measurement_time r) = Some t.
Proof.
  unfold parse_time.
  destruct (strptime_HMS (raw_Measurement_time r)) as [t|]; [|discriminate].
  intros E. injection E as <-. now exists t.
Qed.

Lemma parse_time_Raise r e :
  parse_time strptime_HMS r = Raise e ->
  strptime_HMS (raw_Measurement_time r) = None
  /\ e = ValueError_parse TimeColumn (raw_Measurement_time r).
Proof.
  unfold parse_time.
  destruct (strptime_HMS (raw_Measurement_time r)); [discriminate|].
  intros E. injection E as <-. auto.
Qed.

Lemma parse_datetime_Raise rt e :
  parse_datetime to_datetime rt = Raise e ->
  exists text, e = ValueError_parse DatetimeColumn text.
Proof.
  destruct rt as [r t]. unfold parse_datetime.
  destruct (to_datetime _); [discriminate|].
  intros E. injection E as <-. eauto.
Qed.

Lemma parse_datetime_Ok r t row :
  strptime_HMS (raw_Measurement_time r) = Some t ->
  parse_datetime to_datetime (r, t) = Ok row ->
  unified strptime_HMS to_datetime r row.
Proof.
  intros Ht. unfold parse_datetime.
  destruct (to_datetime _) as [ts|] eqn:E; [|discriminate].
  intros H. injection H as <-. exists t. simpl. auto 10.
Qed.

Lemma read_file_Raise sheet e :
  read_file strptime_HMS to_datetime sheet = Raise e ->
  (exists r, In r sheet
             /\ strptime_HMS (raw_Measurement_time r) = None
             /\ e = ValueError_parse TimeColumn (raw_Measurement_time r))
  \/ (exists text, e = ValueError_parse DatetimeColumn text).
Proof.
  unfold read_file.
  destruct (mapM (parse_time strptime_HMS) sheet) as [timed|e'] eqn:E; simpl.
  - intros H. apply mapM_Raise in H. destruct H as (rt & _ & H).
    right. now apply parse_datetime_Raise in H.
  - intros H. injection H as ->. apply mapM_Raise in E.
    destruct E as (r & Hr & E). apply parse_time_Raise in E.
    left. exists r. tauto.
Qed.

Lemma read_file_Ok_times sheet df r :
  read_file strptime_HMS to_datetime sheet = Ok df -> In r sheet ->
  strptime_HMS (raw_Measurement_time r) <> None.
Proof.
  unfold read_file.
  destruct (mapM (parse_time strptime_HMS) sheet) as [timed|e'] eqn:E; simpl;
    [|discriminate].
  intros _ Hr. apply mapM_Ok in E.
  destruct (Forall2_In_left _ _ _ _ E Hr) as (rt & _ & H).
  apply parse_time_Ok in H. destruct H as (t & _ & ->). discriminate.
Qed.

Lemma read_file_Ok sheet :
  (forall r, In r sheet ->
     exists t ts,
       strptime_HMS (raw_Measurement_time r) = Some t
       /\ to_datetime (raw_Date r ++ " " ++ time_str t)%string = Some ts) ->
  exists df,
    read_file strptime_HMS to_datetime sheet = Ok df
    /\ Forall2 (unified strptime_HMS to_datetime) sheet df.
Proof.
  induction sheet as [|r sheet IH]; intros H.
  - exists []. split; [reflexivity | constructor].
  - destruct (H r (or_introl eq_refl)) as (t & ts & Ht & Hts).
    destruct IH as (df & Edf & F); [intros x Hx; apply H; now right|].
    unfold read_file in *. simpl. unfold parse_time at 1. rewrite Ht. simpl.
    destruct (mapM (parse_time strptime_HMS) sheet) as [timed|e]; simpl in *;
      [|discriminate].
    rewrite Hts. simpl. rewrite Edf. simpl. eexists. split; [reflexivity|].
    constructor; [|exact F].
    exists t. simpl. auto 10.
Qed.

Lemma read_file_unified sheet df :
  read_file strptime_HMS to_datetime sheet = Ok df ->
  Forall2 (unified strptime_HMS to_datetime) sheet df.
Proof.
  unfold read_file.
  destruct (mapM (parse_time strptime_HMS) sheet) as [timed|e] eqn:E;
    cbn [bind]; [|discriminate].
  intros H. apply mapM_Ok in E, H.
  refine (Forall2_compose _ _ _ _ _ _ _ E H).
  intros r rt row Hrt Hrow. cbv beta in Hrt, Hrow.
  apply parse_time_Ok in Hrt. destruct Hrt as (t & -> & Ht).
  now apply (parse_datetime_Ok r t).
Qed.

Lemma load_data_unfold directory entries :
  listdir directory = Some entries ->
  load_data strptime_HMS to_datetime listdir directory
  = (dfs <- mapM (fun e => read_file strptime_HMS to_datetime (snd e))
                 (file_list entries) ;;
     pd_concat dfs).
Proof. intros H. unfold load_data. now rewrite H. Qed.

(** A table the load returns is made of the rows of the files of
    [file_list], file after file. *)
Lemma load_data_Ok_rows directory entries df :
  listdir directory = Some entries ->
  load_data strptime_HMS to_datetime listdir directory = Ok df ->
  file_list entries <> []
  /\ Forall2 (unified strptime_HMS to_datetime)
             (List.concat (map snd (file_list entries))) df.
Proof.
  intros Hdir. rewrite (load_data_unfold _ _ Hdir).
  destruct (mapM _ (file_list entries)) as [dfs|e] eqn:E; cbn [bind];
    [|discriminate].
  unfold pd_concat. intros H.
  assert (dfs <> []) as Hdfs by (intros ->; discriminate).
  assert (df = List.concat dfs) as ->
      by (destruct dfs; [contradiction | congruence]).
  apply mapM_Ok in E.
  assert (Forall2 (Forall2 (unified strptime_HMS to_datetime))
                  (map snd (file_list entries)) dfs) as F.
  { clear H Hdfs. induction E as [|e d' l m Hd _ IH]; simpl; constructor.
    - now apply read_file_unified.
    - exact IH. }
  split.
  - intros C. rewrite C in E. inversion E. congruence.
  - now apply Forall2_concat.
Qed.

(** With at least one file in [file_list] and every row of those files
    well formed, the load returns a table. *)
Lemma load_data_total directory entries :
  listdir directory = Some entries ->
  file_list entries <> [] ->
  (forall e r, In e (file_list entries) -> In r (snd e) ->
     exists t ts,
       strptime_HMS (raw_Measurement_time r) = Some t
       /\ to_datetime (raw_Date r ++ " " ++ time_str t)%string = Some ts) ->
  exists df, load_data strptime_HMS to_datetime listdir directory = Ok df.
Proof.
  intros Hdir Hne Hok. rewrite (load_data_unfold _ _ Hdir).
  assert (exists dfs,
             mapM (fun e => read_file strptime_HMS to_datetime (snd e))
                  (file_list entries) = Ok dfs
             /\ List.length dfs = List.length (file_list entries))
    as (dfs & E & L).
  { revert Hok. generalize (file_list entries) as files. clear.
    induction files as [|e files IH]; intros Hok.
    - exists []. split; reflexivity.
    - destruct (read_file_Ok (snd e)) as (df & Edf & _);
        [intros r Hr; apply (Hok e r); [now left | exact Hr]|].
      destruct IH as (dfs & Edfs & L);
        [intros x r Hx Hr; apply (Hok x r); [now right | exact Hr]|].
      exists (df :: dfs). simpl. rewrite Edf. simpl. rewrite Edfs.
      split; [reflexivity | now rewrite L]. }
  rewrite E. cbn [bind]. unfold pd_concat.
  destruct dfs as [|df dfs]; [|eauto].
  destruct (file_list entries); [congruence | discriminate].
Qed.

End LoaderFacts.

(** ** The claims about the loader *)

(** The parser instance on a few strings. *)
Example sample_parser :
  Strptime.strptime_HMS "00:30:00" = Some (mkTime 0 30 0)
  /\ Strptime.strptime_HMS "1 pm" = None
  /\ Strptime.to_datetime "2024-01-01 00:30:00" = Some 1704069000
  /\ Strptime.to_datetime "2024-02-29 00:00:00" = Some 1709164800
  /\ Strptime.to_datetime "2023-02-29 00:00:00" = None
  /\ Strptime.to_datetime "2024-02-30 00:00:00" = None.
Proof. repeat split; vm_compute; reflexivity. Qed.

(** C10.  The extension filter is case-sensitive.  The entries the loader
    keeps are exactly the directory entries whose names end in the
    upper-case ".XLSX", in listing order.  The loader loads exactly those:
    a table it returns consists of their rows and of nothing else, file
    after file, and it returns that table whenever there is at least one
    such file and all their rows are well formed.  An entry ending in the
    lower-case ".xlsx" is passed over without a trace, whatever it holds:
    the load gives the same result with and without it. *)
Theorem C10_extension_case_sensitive :
  (forall entries e,
      In e (file_list entries)
      <-> (In e entries /\ exists p, fst e = (p ++ ".XLSX")%string))
  /\ (forall p, endswith (p ++ ".xlsx") ".XLSX" = false)
  /\ (forall l1 p sheet l2,
         file_list (l1 ++ ((p ++ ".xlsx")%string, sheet) :: l2)
         = file_list (l1 ++ l2))
  /\ (forall strptime_HMS to_datetime l1 p sheet l2 directory,
         load_data strptime_HMS to_datetime
                   (disk (l1 ++ ((p ++ ".xlsx")%string, sheet) :: l2))
                   directory
         = load_data strptime_HMS to_datetime (disk (l1 ++ l2)) directory)
  /\ (forall strptime_HMS to_datetime listdir directory entries df,
         listdir directory = Some entries ->
         load_data strptime_HMS to_datetime listdir directory = Ok df ->
         Forall2 (unified strptime_HMS to_datetime)
                 (List.concat
                    (map snd
                         (filter (fun e => endswith (fst e) ".XLSX") entries)))
                 df)
  /\ (forall strptime_HMS to_datetime listdir directory entries,
         listdir directory = Some entries ->
         (exists e p, In e entries /\ fst e = (p ++ ".XLSX")%string) ->
         (forall e p r,
             In e entries -> fst e = (p ++ ".XLSX")%string -> In r (snd e) ->
             exists t ts,
               strptime_HMS (raw_Measurement_time r) = Some t
               /\ to_datetime (raw_Date r ++ " " ++ time_str t)%string
                  = Some ts) ->
         exists df,
           load_data strptime_HMS to_datetime listdir directory = Ok df
           /\ Forall2 (unified strptime_HMS to_datetime)
                      (List.concat
                         (map snd
                              (filter (fun e => endswith (fst e) ".XLSX")
                                      entries)))
                      df)
  /\ load_data Strptime.strptime_HMS Strptime.to_datetime
               (disk [("old.xlsx", sheet_bad_time);
                      ("log.XLSX", sheet_off_hour);
                      ("log.xlsx", sheet_off_hour)])
               GT5
     = Ok [mkRow 1704069000 (Some "2024-01-01") (Some "00:30:00")
                 (Some "Temp") (Some (1#1)) (Some "degC");
           mkRow 1704074400 (Some "2024-01-01") (Some "02:00:00")
                 (Some "Temp") (Some (2#1)) (Some "degC")].
Proof.
  assert (forall p, endswith (p ++ ".xlsx") ".XLSX" = false) as Hlow.
  { intros p. destruct (endswith (p ++ ".xlsx") ".XLSX") eqn:E;
      [|reflexivity].
    apply endswith_suffix in E. destruct E as [q E].
    apply append_inv_length in E; [discriminate | reflexivity]. }
  assert (forall l1 p sheet l2,
             file_list (l1 ++ ((p ++ ".xlsx")%string, sheet) :: l2)
             = file_list (l1 ++ l2)) as Hskip.
  { intros l1 p sheet l2. unfold file_list.
    rewrite !filter_app. cbn [filter fst]. now rewrite Hlow. }
  assert (forall entries e,
             In e (file_list entries)
             <-> (In e entries /\ exists p, fst e = (p ++ ".XLSX")%string))
    as Hin.
  { intros entries e. unfold file_list. rewrite filter_In.
    now rewrite endswith_suffix. }
  split; [exact Hin|].
  split; [exact Hlow|]. split; [exact Hskip|]. split; [|split; [|split]].
  - intros strptime_HMS to_datetime l1 p sheet l2 directory.
    unfold load_data, disk.
    destruct (String.eqb directory GT5); [|reflexivity].
    now rewrite Hskip.
  - intros strptime_HMS to_datetime listdir directory entries df Hdir Hload.
    now apply (load_data_Ok_rows strptime_HMS to_datetime listdir
                                 directory entries df Hdir).
  - intros strptime_HMS to_datetime listdir directory entries Hdir
           (e0 & p0 & He0 & Hp0) Hok.
    assert (file_list entries <> []) as Hne.
    { intros C. assert (In e0 (file_list entries)) as H
          by (apply Hin; eauto).
      rewrite C in H. destruct H. }
    destruct (load_data_total strptime_HMS to_datetime listdir
                              directory entries Hdir Hne) as (df & E).
    + intros e r He Hr. apply Hin in He. destruct He as (He & p & Hp).
      now apply (Hok e p r).
    + exists df. split; [exact E|].
      now apply (load_data_Ok_rows strptime_HMS to_datetime listdir
                                   directory entries df Hdir).
  - vm_compute. reflexivity.
Qed.

(** C8.  If a file the loader reads holds a time-of-day value that the
    strict hours:minutes:seconds format rejects, the load raises a parse
    error and returns no table at all; if every time value is accepted, the
    load raises no time-of-day parse error. *)
Theorem C8_unparseable_time_aborts
        (strptime_HMS : string -> option TimeOfDay)
        (to_datetime : string -> option Z)
        (listdir : string -> option Listing)
        (directory : string) (entries : Listing) :
  listdir directory = Some entries ->
  ((exists e r, In e (file_list entries) /\ In r (snd e)
                /\ strptime_HMS (raw_Measurement_time r) = None) ->
   exists stage text,
     load_data strptime_HMS to_datetime listdir directory
     = Raise (ValueError_parse stage text)
     /\ (stage = TimeColumn -> strptime_HMS text = None))
  /\ ((forall e r, In e (file_list entries) -> In r (snd e) ->
                   strptime_HMS (raw_Measurement_time r) <> None) ->
      forall text,
        load_data strptime_HMS to_datetime listdir directory
        <> Raise (ValueError_parse TimeColumn text)).
Proof.
  intros Hdir. rewrite (load_data_unfold _ _ _ _ _ Hdir).
  destruct (mapM (fun e => read_file strptime_HMS to_datetime (snd e))
                 (file_list entries)) as [dfs|err] eqn:E; simpl.
  - split.
    + intros (e & r & He & Hr & Hbad). exfalso.
      apply mapM_Ok in E.
      destruct (Forall2_In_left _ _ _ _ E He) as (df & _ & Hdf).
      now apply (read_file_Ok_times _ _ _ _ _ Hdf Hr).
    + intros _ text. unfold pd_concat.
      destruct dfs; discriminate.
  - apply mapM_Raise in E. destruct E as (e & He & E).
    apply read_file_Raise in E. split.
    + intros _.
      destruct E as [(r & Hr & Hbad & ->)|(text & ->)].
      * exists TimeColumn, (raw_Measurement_time r). auto.
      * exists DatetimeColumn, text. split; [reflexivity | discriminate].
    + intros Hall text C. injection C as ->.
      destruct E as [(r & Hr & Hbad & _)|(text' & C)];
        [|discriminate].
      now apply (Hall e r).
Qed.

Lemma C8_unparseable_time_aborts_witness :
  load_data Strptime.strptime_HMS Strptime.to_datetime
            (disk [("log.XLSX", sheet_off_hour); ("bad.XLSX", sheet_bad_time)])
            GT5
  = Raise (ValueError_parse TimeColumn "1 pm").
Proof.
  destruct (C8_unparseable_time_aborts
              Strptime.strptime_HMS Strptime.to_datetime
              (disk [("log.XLSX", sheet_off_hour);
                     ("bad.XLSX", sheet_bad_time)])
              GT5
              [("log.XLSX", sheet_off_hour); ("bad.XLSX", sheet_bad_time)]
              eq_refl) as [H _].
  destruct H as (stage & text & E & _).
  - exists ("bad.XLSX", sheet_bad_time),
           (mkRaw "2024-01-01" "1 pm" "Temp" (Some (2#1)) "degC").
    simpl. tauto.
  - reflexivity.
Defined.

(** C4, amended.  For an existing directory with at least one matching
    spreadsheet file, all with well-formed rows, the loader returns the
    unified table: the rows of the files in listing order, each with its
    timestamp.  For an existing directory without a matching file the load
    raises instead of returning an empty table. *)
Theorem C4_loader_returns_unified_table
        (strptime_HMS : string -> option TimeOfDay)
        (to_datetime : string -> option Z)
        (listdir : string -> option Listing)
        (directory : string) (entries : Listing) :
  listdir directory = Some entries ->
  (file_list entries = [] ->
   load_data strptime_HMS to_datetime listdir directory
   = Raise ValueError_no_objects_to_concatenate)
  /\ (file_list entries <> [] ->
      (forall e r, In e (file_list entries) -> In r (snd e) ->
         exists t ts,
           strptime_HMS (raw_Measurement_time r) = Some t
           /\ to_datetime (raw_Date r ++ " " ++ time_str t)%string
              = Some ts) ->
      exists df,
        load_data strptime_HMS to_datetime listdir directory = Ok df
        /\ Forall2 (unified strptime_HMS to_datetime)
                   (List.concat (map snd (file_list entries))) df
        /\ List.length df
           = List.length (List.concat (map snd (file_list entries)))).
Proof.
  intros Hdir. rewrite (load_data_unfold _ _ _ _ _ Hdir). split.
  { intros ->. reflexivity. }
  intros Hne Hok.
  assert (exists dfs,
             mapM (fun e => read_file strptime_HMS to_datetime (snd e))
                  (file_list entries) = Ok dfs
             /\ Forall2 (Forall2 (unified strptime_HMS to_datetime))
                        (map snd (file_list entries)) dfs) as (dfs & E & F).
  { revert Hok. generalize (file_list entries) as files. clear.
    induction files as [|e files IH]; intros Hok.
    - exists []. split; [reflexivity | constructor].
    - destruct (read_file_Ok strptime_HMS to_datetime (snd e))
        as (df & Edf & Fdf);
        [intros r Hr; apply (Hok e r); [now left | exact Hr]|].
      destruct IH as (dfs & Edfs & Fdfs);
        [intros x r Hx Hr; apply (Hok x r); [now right | exact Hr]|].
      exists (df :: dfs). simpl. rewrite Edf. simpl. rewrite Edfs.
      split; [reflexivity | now constructor]. }
  rewrite E. simpl. exists (List.concat dfs).
  assert (Forall2 (unified strptime_HMS to_datetime)
                  (List.concat (map snd (file_list entries)))
                  (List.concat dfs)) as Hall by now apply Forall2_concat.
  split; [|split; [exact Hall|]].
  - destruct dfs as [|df dfs]; [|reflexivity].
    inversion F as [H0|]. destruct (file_list entries); [congruence|].
    discriminate.
  - symmetry. apply (Forall2_length Hall).
Qed.

Lemma C4_loader_returns_unified_table_witness :
  exists df,
    load_data Strptime.strptime_HMS Strptime.to_datetime
              (disk [("log.XLSX", sheet_off_hour)]) GT5 = Ok df
    /\ List.length df = 2%nat.
Proof.
  destruct (C4_loader_returns_unified_table
              Strptime.strptime_HMS Strptime.to_datetime
              (disk [("log.XLSX", sheet_off_hour)]) GT5
              [("log.XLSX", sheet_off_hour)] eq_refl)
    as [_ H].
  destruct H as (df & E & _ & L).
  - discriminate.
  - intros e r [<-|[]] [<-|[<-|[]]]; eexists; eexists; split; reflexivity.
  - exists df. split; [exact E | exact L].
Defined.

(** C4 as stated fails: an existing directory without a matching file makes
    the load raise, it does not return an empty table. *)
Lemma C4_counterexample :
  load_data Strptime.strptime_HMS Strptime.to_datetime
            (disk [("notes.txt", [])]) GT5
  = Raise ValueError_no_objects_to_concatenate
  /\ load_data Strptime.strptime_HMS Strptime.to_datetime (disk []) GT5
     <> Ok [].
Proof. split; [reflexivity | discriminate]. Qed.

(** ** The claims about the callback *)

Lemma normalised_nonempty df : df <> [] -> normalised df <> [].
Proof.
  intros Hne C.
  destruct (frame_extremes df Hne) as (tmin & tmax & Hmin & Hmax).
  pose proof (normalised_grid df tmin tmax Hne Hmin Hmax) as G.
  pose proof (floor_h_mono _ _ (is_min_le_max _ _ _ Hmin Hmax)) as Hle.
  destruct (date_range_first_last _ _ Hle) as [Hhd _].
  rewrite <- G, C in Hhd. discriminate.
Qed.

(** C2.  On a series with zero rows the normaliser fails: line 44 raises a
    value error, the error of the empty input.  On a series with at least
    one row the normaliser raises nothing and returns at least one row.  A
    callback whose channel selects no row of the loaded table fails with
    that error. *)
Theorem C2_empty_series_raises :
  fill_missing_hours_and_interpolate []
  = Raise (ValueError_cannot_insert "Datetime")
  /\ (forall df, raises (fill_missing_hours_and_interpolate df) <-> df = [])
  /\ (forall df, df <> [] ->
        exists out,
          fill_missing_hours_and_interpolate df = Ok out /\ out <> [])
  /\ (forall strptime_HMS to_datetime listdir triggered directory_name
             selected directory df,
         getitem directories directory_name = Ok directory ->
         load_data strptime_HMS to_datetime listdir directory = Ok df ->
         String.eqb triggered "directory-radio" = false ->
         falsy selected = false ->
         filter (fun r => matches selected (Description r)) df = [] ->
         update_output strptime_HMS to_datetime listdir
                       triggered directory_name selected
         = Raise (ValueError_cannot_insert "Datetime")).
Proof.
  split; [reflexivity|]. split; [|split].
  - intros df. split.
    + intros [e He]. destruct df as [|r df]; [reflexivity|].
      rewrite normaliser_returns in He by discriminate. discriminate.
    + intros ->. eexists. reflexivity.
  - intros df Hne. exists (normalised df).
    split; [now apply normaliser_returns | now apply normalised_nonempty].
  - intros strptime_HMS to_datetime listdir triggered directory_name
           selected directory df Hdir Hload Htrig Hsel Hfilter.
    unfold update_output. rewrite Hdir. cbn [bind]. rewrite Hload.
    cbn [bind]. rewrite Htrig, Hsel. cbn [orb bind]. rewrite Hfilter.
    reflexivity.
Qed.

(** C5 at an input where it fails.  One file for unit GT 5 holds two
    readings of channel Temp in degC, at 00:30 and at 02:00.  The callback
    succeeds, and the title it renders holds the channel name but "nan" in
    place of the unit label: the first row of the normalised series is the
    grid row 00:00, which carries no unit label. *)
Theorem C5_title_without_unit_label :
  exists options fig,
    update_output Strptime.strptime_HMS Strptime.to_datetime
                  (disk [("log.XLSX", sheet_off_hour)])
                  "directory-radio" "GT 5" None
    = Ok (options, Some "Temp", fig)
    /\ fig_title fig = "Data for Temp (nan)"
    /\ contains (fig_title fig) "Temp" = true
    /\ contains (fig_title fig) "degC" = false.
Proof.
  eexists. eexists. split; [vm_compute; reflexivity|].
  repeat split.
Qed.

(** Where the first reading of the channel lies on the hour, the title
    holds the unit label. *)
Example title_with_unit_label :
  exists options fig,
    update_output Strptime.strptime_HMS Strptime.to_datetime
                  (disk [("log.XLSX",
                          [mkRaw "2024-01-01" "01:00:00" "Temp"
                                 (Some (1#1)) "degC";
                           mkRaw "2024-01-01" "03:00:00" "Temp"
                                 (Some (2#1)) "degC"])])
                  "directory-radio" "GT 5" None
    = Ok (options, Some "Temp", fig)
    /\ fig_title fig = "Data for Temp (degC)".
Proof. eexists. eexists. split; [vm_compute; reflexivity | reflexivity]. Qed.

(** * Further properties *)

(** ** The callback, step by step *)

Section CallbackFacts.

Variable strptime_HMS : string -> option TimeOfDay.
Variable to_datetime : string -> option Z.
Variable listdir : string -> option Listing.

Lemma update_output_Ok triggered directory_name selected options chosen fig :
  update_output strptime_HMS to_datetime listdir
                triggered directory_name selected
  = Ok (options, chosen, fig) ->
  exists directory df,
    getitem directories directory_name = Ok directory
    /\ load_data strptime_HMS to_datetime listdir directory = Ok df
    /\ options = unique (map Description df)
    /\ (if String.eqb triggered "directory-radio" || falsy selected
        then iloc0 (unique (map Description df))
        else Ok selected) = Ok chosen
    /\ filtered chosen df <> []
    /\ px_line chosen (normalised (filtered chosen df)) = Ok fig.
Proof.
  unfold update_output, filtered.
  destruct (getitem directories directory_name) as [directory|e] eqn:Eg;
    cbn [bind]; [|discriminate].
  destruct (load_data strptime_HMS to_datetime listdir directory)
    as [df|e] eqn:El; cbn [bind]; [|discriminate].
  destruct (if String.eqb triggered "directory-radio" || falsy selected
            then iloc0 (unique (map Description df))
            else Ok selected) as [c|e] eqn:Ec; cbn [bind]; [|discriminate].
  destruct (fill_missing_hours_and_interpolate _) as [out|e] eqn:En;
    cbn [bind]; [|discriminate].
  apply normaliser_Ok in En. destruct En as [Hne ->].
  destruct (px_line c (normalised _)) as [f|e] eqn:Ef; cbn [bind];
    [|discriminate].
  intros H. injection H as <- <- <-.
  exists directory, df. repeat split; assumption || reflexivity.
Qed.

Lemma update_output_Raise triggered directory_name selected e :
  update_output strptime_HMS to_datetime listdir
                triggered directory_name selected
  = Raise e ->
  getitem directories directory_name = Raise e
  \/ (exists directory,
         getitem directories directory_name = Ok directory
         /\ load_data strptime_HMS to_datetime listdir directory = Raise e)
  \/ e = IndexError
  \/ e = ValueError_cannot_insert "Datetime".
Proof.
  unfold update_output.
  destruct (getitem directories directory_name) as [directory|e0] eqn:Eg;
    cbn [bind]; [|intros H; left; congruence].
  destruct (load_data strptime_HMS to_datetime listdir directory)
    as [df|e0] eqn:El; cbn [bind];
    [|intros H; right; left; exists directory; split; congruence].
  intros H. right. right.
  destruct (if String.eqb triggered "directory-radio" || falsy selected
            then iloc0 (unique (map Description df))
            else Ok selected) as [c|e0] eqn:Ec; cbn [bind] in H.
  - destruct (filter (fun r => matches c (Description r)) df)
      as [|r0 rows] eqn:Ef.
    + right. rewrite normaliser_empty in H. cbn [bind] in H. congruence.
    + left. rewrite normaliser_returns in H by discriminate.
      cbn [bind] in H. unfold px_line in H.
      destruct (iloc0 (map CharactstcUnit (normalised _))) as [u|e0] eqn:Eu;
        cbn [bind] in H; [discriminate|].
      injection H as <-.
      destruct (map CharactstcUnit (normalised _)); simpl in Eu; congruence.
  - left. injection H as <-.
    destruct (String.eqb triggered "directory-radio" || falsy selected);
      [|discriminate].
    destruct (unique (map Description df)); simpl in Ec; congruence.
Qed.

Lemma load_data_errors directory e :
  load_data strptime_HMS to_datetime listdir directory = Raise e ->
  e = FileNotFoundError
  \/ (exists stage text, e = ValueError_parse stage text)
  \/ e = ValueError_no_objects_to_concatenate.
Proof.
  unfold load_data. destruct (listdir directory) as [entries|];
    [|intros H; injection H as <-; now left].
  destruct (mapM _ (file_list entries)) as [dfs|e0] eqn:E; simpl.
  - unfold pd_concat. destruct dfs; [|discriminate].
    intros H. injection H as <-. auto.
  - intros H. injection H as ->. apply mapM_Raise in E.
    destruct E as (x & _ & E). apply read_file_Raise in E.
    right. left. destruct E as [(r & _ & _ & ->)|(text & ->)]; eauto.
Qed.

End CallbackFacts.

(** ** Distinct cells in order of first appearance *)

Lemma cell_eqb_eq a b : cell_eqb a b = true <-> a = b.
Proof.
  destruct a as [x|], b as [y|]; simpl; try (split; congruence).
  rewrite String.eqb_eq. split; congruence.
Qed.

Lemma existsb_cell_In c seen :
  existsb (cell_eqb c) seen = true <-> In c seen.
Proof.
  rewrite existsb_exists. split.
  - intros (x & Hx & E). apply cell_eqb_eq in E. now subst.
  - intros H. exists c. split; [assumption | now apply cell_eqb_eq].
Qed.

Lemma unique_from_In seen l c :
  In c (unique_from seen l) <-> (In c l /\ ~ In c seen).
Proof.
  revert seen. induction l as [|x l IH]; intros seen; simpl; [tauto|].
  destruct (existsb (cell_eqb x) seen) eqn:E.
  - apply existsb_cell_In in E. rewrite IH. split; [tauto|].
    intros [[->|H] N]; tauto.
  - assert (~ In x seen) as Hx
        by (intros C; apply existsb_cell_In in C; congruence).
    simpl. rewrite IH. simpl. split.
    + intros [->|[H N]]; tauto.
    + intros [[->|H] N]; [now left|].
      destruct (cell_eqb x c) eqn:Exc.
      * apply cell_eqb_eq in Exc. now left.
      * right. split; [exact H|]. intros [C|C]; [|contradiction].
        apply cell_eqb_eq in C. congruence.
Qed.

Lemma unique_from_NoDup seen l : NoDup (unique_from seen l).
Proof.
  revert seen. induction l as [|x l IH]; intros seen; simpl; [constructor|].
  destruct (existsb (cell_eqb x) seen); [apply IH|].
  constructor; [|apply IH].
  intros C. apply unique_from_In in C. simpl in C. tauto.
Qed.

Lemma unique_from_ext seen seen' l :
  (forall c, In c seen <-> In c seen') ->
  unique_from seen l = unique_from seen' l.
Proof.
  revert seen seen'. induction l as [|x l IH]; intros seen seen' H; simpl;
    [reflexivity|].
  assert (existsb (cell_eqb x) seen = existsb (cell_eqb x) seen') as ->.
  { apply eq_true_iff_eq. rewrite !existsb_cell_In. apply H. }
  destruct (existsb (cell_eqb x) seen').
  - now apply IH.
  - f_equal. apply IH. intros c. simpl. rewrite H. tauto.
Qed.

Lemma unique_from_app seen l1 l2 :
  unique_from seen (l1 ++ l2)
  = unique_from seen l1 ++ unique_from (rev l1 ++ seen) l2.
Proof.
  revert seen. induction l1 as [|x l1 IH]; intros seen; simpl;
    [reflexivity|].
  destruct (existsb (cell_eqb x) seen) eqn:E.
  - rewrite IH. f_equal. apply unique_from_ext. intros c.
    rewrite <- app_assoc. rewrite !in_app_iff. simpl.
    apply existsb_cell_In in E. split; [tauto|].
    intros [H|[[<-|[]]|H]]; tauto.
  - simpl. f_equal. rewrite IH. f_equal. apply unique_from_ext. intros c.
    rewrite <- app_assoc. rewrite !in_app_iff. simpl. tauto.
Qed.

(** A cell stands in [unique l] right after the distinct cells that precede
    its first appearance in [l]. *)
Lemma unique_first_seen l1 c l2 :
  ~ In c l1 ->
  exists rest, unique (l1 ++ c :: l2) = unique l1 ++ c :: rest.
Proof.
  intros H. unfold unique. rewrite unique_from_app. simpl.
  destruct (existsb (cell_eqb c) (rev l1 ++ [])) eqn:E.
  - apply existsb_cell_In in E. rewrite app_nil_r in E.
    apply in_rev in E. contradiction.
  - eauto.
Qed.


(** ** Substrings *)

Lemma prefix_append (n s : string) : prefix n (n ++ s)%string = true.
Proof.
  induction n as [|c n IH]; simpl; [now destruct s|].
  destruct (ascii_dec c c); [exact IH | congruence].
Qed.

Lemma contains_prefix (s n : string) : prefix n s = true -> contains s n = true.
Proof. intros H. destruct s; cbn [contains]; now rewrite H. Qed.

Lemma contains_append_right (a s n : string) :
  contains s n = true -> contains (a ++ s)%string n = true.
Proof.
  intros H. induction a as [|c a IH]; [exact H|].
  cbn [append contains]. rewrite IH. apply orb_true_r.
Qed.

Lemma contains_middle (a n b : string) :
  contains (a ++ n ++ b)%string n = true.
Proof. apply contains_append_right, contains_prefix, prefix_append. Qed.

(** ** Properties of the callback *)

Lemma getitem_KeyError (directory_name : string) :
  getitem directories directory_name = Raise KeyError
  <-> ~ In directory_name ["GT 5"; "GT 6"; "GT 7"].
Proof.
  unfold getitem, directories. cbn [find fst snd].
  destruct (String.eqb_spec "GT 5" directory_name) as [<-|N5];
    [split; [discriminate | simpl; tauto]|].
  destruct (String.eqb_spec "GT 6" directory_name) as [<-|N6];
    [split; [discriminate | simpl; tauto]|].
  destruct (String.eqb_spec "GT 7" directory_name) as [<-|N7];
    [split; [discriminate | simpl; tauto]|].
  split; [|reflexivity]. intros _ [C|[C|[C|[]]]]; congruence.
Qed.

Lemma update_output_KeyError
      (strptime_HMS : string -> option TimeOfDay)
      (to_datetime : string -> option Z)
      (listdir : string -> option Listing)
      (triggered directory_name : string) (selected : option string) :
  update_output strptime_HMS to_datetime listdir
                triggered directory_name selected = Raise KeyError
  <-> ~ In directory_name ["GT 5"; "GT 6"; "GT 7"].
Proof.
  rewrite <- getitem_KeyError. split.
  - intros H. apply update_output_Raise in H.
    destruct H as [H|[(directory & _ & H)|[H|H]]];
      [exact H| |discriminate|discriminate].
    apply load_data_errors in H.
    destruct H as [H|[(stage & text & H)|H]]; discriminate.
  - intros H. unfold update_output. now rewrite H.
Qed.

(** X1.  The callback raises a key error exactly when the unit name is not
    one of the keys of [directories], and an error of the loader reaches the
    caller unchanged. *)
Theorem update_output_errors
        (strptime_HMS : string -> option TimeOfDay)
        (to_datetime : string -> option Z)
        (listdir : string -> option Listing)
        (triggered directory_name : string) (selected : option string) :
  (update_output strptime_HMS to_datetime listdir
                 triggered directory_name selected = Raise KeyError
   <-> ~ In directory_name ["GT 5"; "GT 6"; "GT 7"])
  /\ (forall directory e,
         getitem directories directory_name = Ok directory ->
         load_data strptime_HMS to_datetime listdir directory = Raise e ->
         update_output strptime_HMS to_datetime listdir
                       triggered directory_name selected = Raise e).
Proof.
  split.
  - apply update_output_KeyError.
  - intros directory e Hd Hl. unfold update_output.
    rewrite Hd. cbn [bind]. now rewrite Hl.
Qed.

(** X2.  The channel options a successful callback returns are the
    descriptions of the loaded table, each once, in order of first
    appearance. *)
Theorem update_output_options
        (strptime_HMS : string -> option TimeOfDay)
        (to_datetime : string -> option Z)
        (listdir : string -> option Listing)
        (triggered directory_name : string) (selected : option string)
        (options : list (option string)) (chosen : option string)
        (fig : Figure) :
  update_output strptime_HMS to_datetime listdir
                triggered directory_name selected
  = Ok (options, chosen, fig) ->
  exists directory df,
    getitem directories directory_name = Ok directory
    /\ load_data strptime_HMS to_datetime listdir directory = Ok df
    /\ NoDup options
    /\ (forall c, In c options <-> In c (map Description df))
    /\ (forall l1 c l2,
           map Description df = l1 ++ c :: l2 -> ~ In c l1 ->
           exists rest, options = unique l1 ++ c :: rest).
Proof.
  intros H. apply update_output_Ok in H.
  destruct H as (directory & df & Hd & Hl & -> & _ & _ & _).
  exists directory, df. split; [exact Hd|]. split; [exact Hl|].
  split; [apply unique_from_NoDup|]. split.
  - intros c. unfold unique. rewrite unique_from_In. simpl. tauto.
  - intros l1 c l2 -> Hc. now apply unique_first_seen.
Qed.

Lemma update_output_options_witness :
  exists options chosen fig,
    update_output Strptime.strptime_HMS Strptime.to_datetime
                  (disk [("log.XLSX", sheet_off_hour)])
                  "directory-radio" "GT 5" None
    = Ok (options, chosen, fig)
    /\ NoDup options.
Proof.
  exists [Some "Temp"], (Some "Temp").
  eexists. split; [vm_compute; reflexivity|].
  destruct (update_output_options
              Strptime.strptime_HMS Strptime.to_datetime
              (disk [("log.XLSX", sheet_off_hour)])
              "directory-radio" "GT 5" None [Some "Temp"] (Some "Temp") _
              eq_refl) as (_ & _ & _ & _ & H & _).
  exact H.
Defined.

(** X3.  When the unit selector triggers the callback, the channel that was
    selected before plays no part: the result is the same for every previous
    selection, and the channel chosen is the one of the first row of the
    loaded table. *)
Theorem update_output_unit_change
        (strptime_HMS : string -> option TimeOfDay)
        (to_datetime : string -> option Z)
        (listdir : string -> option Listing)
        (directory_name : string) (selected selected' : option string) :
  update_output strptime_HMS to_datetime listdir
                "directory-radio" directory_name selected
  = update_output strptime_HMS to_datetime listdir
                  "directory-radio" directory_name selected'
  /\ (forall options chosen fig,
         update_output strptime_HMS to_datetime listdir
                       "directory-radio" directory_name selected
         = Ok (options, chosen, fig) ->
         exists directory r df,
           getitem directories directory_name = Ok directory
           /\ load_data strptime_HMS to_datetime listdir directory
              = Ok (r :: df)
           /\ chosen = Description r).
Proof.
  split; [reflexivity|].
  intros options chosen fig H. apply update_output_Ok in H.
  destruct H as (directory & df & Hd & Hl & _ & Hc & _ & _).
  cbn [String.eqb Ascii.eqb Bool.eqb orb] in Hc.
  destruct df as [|r df]; [discriminate|].
  exists directory, r, df. split; [exact Hd|]. split; [exact Hl|].
  unfold unique in Hc. simpl in Hc. congruence.
Qed.

Lemma normalised_nth df k x :
  nth_error (normalised df) k = Some x ->
  exists r y,
    nth_error (resampled (drop_duplicates df)) k = Some r
    /\ x = set_Meas r y.
Proof.
  unfold normalised. rewrite assign_Meas_nth.
  destruct (nth_error (resampled (drop_duplicates df)) k) as [r|];
    [|discriminate].
  destruct (nth_error (interpolate_linear _) k) as [y|]; [|discriminate].
  intros H. injection H as <-. eauto.
Qed.

Lemma px_line_Ok selected out fig :
  px_line selected out = Ok fig ->
  exists x rest,
    out = x :: rest
    /\ fig = mkFigure (map Datetime out) (map Meas out)
                      (title_text selected (CharactstcUnit x)).
Proof.
  unfold px_line. destruct out as [|x rest]; [discriminate|].
  cbn [map iloc0 bind]. intros H. injection H as <-. eauto.
Qed.

(** The first row of the normalised series, when the earliest reading lies
    on the hour, is that reading up to its number. *)
Lemma normalised_head df r :
  In r (drop_duplicates df) ->
  (forall r', In r' df -> Datetime r <= Datetime r') ->
  on_the_hour (Datetime r) ->
  exists y rest, normalised df = set_Meas r y :: rest.
Proof.
  intros Hr Hmin Hh.
  assert (In r df) as Hin by now apply drop_duplicates_In.
  assert (df <> []) as Hne by (intros ->; contradiction).
  assert (is_min (Datetime r) df) as Hm by (split; [now apply in_map | exact Hmin]).
  destruct (frame_extremes df Hne) as (tmin & tmax & _ & Hmax).
  pose proof (normalised_grid df _ tmax Hne Hm Hmax) as G.
  pose proof (floor_h_mono _ _ (is_min_le_max _ _ _ Hm Hmax)) as Hle.
  destruct (date_range_first_last _ _ Hle) as [Hhd _].
  rewrite <- G, (floor_h_fixed _ Hh) in Hhd.
  destruct (normalised df) as [|x rest] eqn:E; [discriminate|].
  simpl in Hhd. injection Hhd as Hx.
  assert (nth_error (normalised df) 0 = Some x) as H0 by now rewrite E.
  apply normalised_nth in H0. destruct H0 as (r' & y & Hr' & ->).
  apply nth_error_In in Hr'. simpl in Hx.
  rewrite (resample_row_at _ r r' (drop_duplicates_NoDup df) Hr Hr' Hx).
  eauto.
Qed.

(** X4.  What a successful callback draws: the title is "Data for", the
    chosen channel and a unit label in brackets, so it always holds the
    channel name; the x axis is not empty, has one point per y value, and
    its points are whole hours in strictly increasing order, one hour
    apart. *)
Theorem update_output_figure
        (strptime_HMS : string -> option TimeOfDay)
        (to_datetime : string -> option Z)
        (listdir : string -> option Listing)
        (triggered directory_name : string) (selected : option string)
        (options : list (option string)) (chosen : option string)
        (fig : Figure) :
  update_output strptime_HMS to_datetime listdir
                triggered directory_name selected
  = Ok (options, chosen, fig) ->
  (exists unit_label, fig_title fig = title_text chosen unit_label)
  /\ contains (fig_title fig) (fmt chosen) = true
  /\ fig_x fig <> []
  /\ List.length (fig_x fig) = List.length (fig_y fig)
  /\ StronglySorted Z.lt (fig_x fig)
  /\ (forall t, In t (fig_x fig) -> on_the_hour t)
  /\ (forall i t t',
         nth_error (fig_x fig) i = Some t ->
         nth_error (fig_x fig) (S i) = Some t' -> t' = t + HOUR).
Proof.
  intros H. apply update_output_Ok in H.
  destruct H as (directory & df & _ & _ & _ & _ & Hne & H).
  apply px_line_Ok in H. destruct H as (x & rest & E & ->).
  cbn [fig_title fig_x fig_y].
  split; [eauto|]. split; [apply contains_middle|].
  split; [rewrite E; discriminate|].
  split; [now rewrite !length_map|].
  destruct (frame_extremes _ Hne) as (tmin & tmax & Hmin & Hmax).
  rewrite (normalised_grid _ tmin tmax Hne Hmin Hmax).
  split; [apply date_range_sorted|]. split.
  - intros t Ht. apply date_range_hours in Ht; [tauto | apply floor_h_spec].
  - apply date_range_step.
Qed.

Lemma update_output_figure_witness :
  exists options chosen fig,
    update_output Strptime.strptime_HMS Strptime.to_datetime
                  (disk [("log.XLSX", sheet_off_hour)])
                  "description-dropdown" "GT 5" (Some "Temp")
    = Ok (options, chosen, fig)
    /\ contains (fig_title fig) "Temp" = true
    /\ StronglySorted Z.lt (fig_x fig).
Proof.
  exists [Some "Temp"], (Some "Temp").
  eexists. split; [vm_compute; reflexivity|].
  destruct (update_output_figure
              Strptime.strptime_HMS Strptime.to_datetime
              (disk [("log.XLSX", sheet_off_hour)])
              "description-dropdown" "GT 5" (Some "Temp")
              [Some "Temp"] (Some "Temp") _ eq_refl)
    as (_ & Hc & _ & _ & Hs & _).
  split; [exact Hc | exact Hs].
Defined.

(** X5.  When the earliest reading of the series lies on a whole hour, the
    chart of the normalised series carries that reading's unit label in its
    title. *)
Theorem title_unit_of_earliest_reading
        (selected : option string) (df : DataFrame) (r : Row) :
  In r (drop_duplicates df) ->
  (forall r', In r' df -> Datetime r <= Datetime r') ->
  on_the_hour (Datetime r) ->
  exists out fig,
    fill_missing_hours_and_interpolate df = Ok out
    /\ px_line selected out = Ok fig
    /\ fig_title fig = title_text selected (CharactstcUnit r)
    /\ contains (fig_title fig) (fmt (CharactstcUnit r)) = true.
Proof.
  intros Hr Hmin Hh.
  destruct (normalised_head df r Hr Hmin Hh) as (y & rest & E).
  assert (df <> []) as Hne by (intros ->; destruct Hr).
  exists (normalised df). rewrite E. eexists.
  split; [now rewrite (normaliser_returns _ Hne), E|].
  split; [reflexivity|]. cbn [fig_title set_Meas CharactstcUnit].
  split; [reflexivity|].
  unfold title_text.
  do 3 apply contains_append_right.
  apply contains_prefix, prefix_append.
Qed.

Lemma title_unit_of_earliest_reading_witness :
  exists out fig,
    fill_missing_hours_and_interpolate
      [reading 3600 (Some (4#1)); reading 9000 None] = Ok out
    /\ px_line (Some "Temp") out = Ok fig
    /\ fig_title fig = "Data for Temp (degC)".
Proof.
  destruct (title_unit_of_earliest_reading
              (Some "Temp") [reading 3600 (Some (4#1)); reading 9000 None]
              (reading 3600 (Some (4#1))))
    as (out & fig & E & P & T & _).
  - simpl. tauto.
  - intros r' [<-|[<-|[]]]; simpl; lia.
  - reflexivity.
  - exists out, fig. split; [exact E|]. split; [exact P | exact T].
Defined.

(** The resampler with its bin edges computed. *)
Lemma resample_eq dd tmin tmax :
  dd <> [] -> is_min tmin dd -> is_max tmax dd ->
  resampled dd
  = if inferred_freq_is_h (map Datetime (sort_index dd))
       && (List.length (sort_index dd)
           =? List.length (date_range (floor_h tmin) (floor_h tmax)))%nat
    then relabel (sort_index dd) (date_range (floor_h tmin) (floor_h tmax))
    else reindex (sort_index dd) (date_range (floor_h tmin) (floor_h tmax)).
Proof.
  intros Hne [Hmin_in Hmin] [Hmax_in Hmax].
  rewrite resampled_unfold.
  destruct (sort_index dd) as [|r0 tl] eqn:Eobj.
  { apply sort_index_nil in Eobj. contradiction. }
  cbv beta iota zeta.
  assert (forall r, In r (r0 :: tl) <-> In r dd) as Hperm.
  { intros r. rewrite <- Eobj. apply sort_index_In. }
  assert (ax_min (Datetime r0) (map Datetime (r0 :: tl)) = tmin) as ->.
  { apply Z.le_antisymm.
    - apply ax_min_is_min. apply in_map_iff in Hmin_in.
      destruct Hmin_in as (r & <- & Hr). apply in_map. now apply Hperm.
    - pose proof (ax_min_In r0 tl) as H. apply in_map_iff in H.
      destruct H as (r & <- & Hr). apply Hmin. now apply Hperm. }
  assert (ax_max (Datetime r0) (map Datetime (r0 :: tl)) = tmax) as ->.
  { apply Z.le_antisymm.
    - pose proof (ax_max_In r0 tl) as H. apply in_map_iff in H.
      destruct H as (r & <- & Hr). apply Hmax. now apply Hperm.
    - apply ax_max_is_max. apply in_map_iff in Hmax_in.
      destruct Hmax_in as (r & <- & Hr). apply in_map. now apply Hperm. }
  now rewrite range_edges_floor, date_range_removelast.
Qed.

(** X6.  When the earliest reading of the series does not lie on a whole
    hour, and the series is not one of three or more readings exactly one
    hour apart, the first row of the normalised series is a grid row without
    labels and the title shows "nan" where the unit label belongs. *)
Theorem title_nan_when_earliest_off_hour
        (selected : option string) (df : DataFrame) (tmin : Z) :
  is_min tmin df ->
  ~ on_the_hour tmin ->
  inferred_freq_is_h (map Datetime (sort_index (drop_duplicates df))) = false ->
  exists out fig,
    fill_missing_hours_and_interpolate df = Ok out
    /\ px_line selected out = Ok fig
    /\ hd_error (map labels out) = Some (None, None, None, None)
    /\ fig_title fig = title_text selected None.
Proof.
  intros Hmin Hoff Hfreq.
  assert (df <> []) as Hne.
  { intros ->. destruct Hmin as [[] _]. }
  destruct (frame_extremes df Hne) as (tmin' & tmax & _ & Hmax).
  pose proof (drop_duplicates_nonempty df Hne) as Hne'.
  pose proof (is_min_dedup _ _ Hmin) as Hmin'.
  pose proof (is_max_dedup _ _ Hmax) as Hmax'.
  pose proof (resample_eq _ tmin tmax Hne' Hmin' Hmax') as R.
  rewrite Hfreq in R. cbn [andb] in R.
  pose proof (floor_h_mono _ _ (is_min_le_max _ _ _ Hmin Hmax)) as Hle.
  destruct (date_range_first_last _ _ Hle) as [Hhd _].
  destruct (date_range (floor_h tmin) (floor_h tmax)) as [|t idx] eqn:Eidx;
    [discriminate|].
  simpl in Hhd. injection Hhd as ->.
  unfold reindex in R. cbn [map] in R.
  destruct (find (fun r => Datetime r =? floor_h tmin)
                 (sort_index (drop_duplicates df))) as [r|] eqn:F.
  { exfalso. apply find_some in F. destruct F as [Hr F].
    apply Z.eqb_eq in F. rewrite sort_index_In in Hr.
    destruct Hmin' as [_ Hm]. specialize (Hm r Hr).
    pose proof (floor_h_spec tmin) as [B Hz].
    assert (floor_h tmin = tmin) as E by lia.
    apply Hoff. unfold on_the_hour. now rewrite <- E. }
  exists (normalised df). unfold normalised. rewrite R. cbn [assign_Meas map].
  destruct (interpolate_linear _) as [|y ys] eqn:Ey.
  { apply (f_equal (@List.length _)) in Ey.
    rewrite interpolate_length in Ey. discriminate. }
  eexists.
  split;
    [now rewrite (normaliser_returns _ Hne); unfold normalised; rewrite R;
         cbn [assign_Meas map]; rewrite Ey|].
  split; [reflexivity|]. split; reflexivity.
Qed.

Lemma title_nan_when_earliest_off_hour_witness :
  exists out fig,
    fill_missing_hours_and_interpolate
      [reading 1800 (Some (1#1)); reading 7200 (Some (2#1))] = Ok out
    /\ px_line (Some "Temp") out = Ok fig
    /\ fig_title fig = "Data for Temp (nan)".
Proof.
  destruct (title_nan_when_earliest_off_hour
              (Some "Temp")
              [reading 1800 (Some (1#1)); reading 7200 (Some (2#1))] 1800)
    as (out & fig & E & P & _ & T).
  - split; [simpl; tauto|]. intros r [<-|[<-|[]]]; simpl; lia.
  - discriminate.
  - reflexivity.
  - exists out, fig. split; [exact E|]. split; [exact P | exact T].
Defined.

(** ** More on interpolation *)

Lemma first_sample_least ys x0 y0 pts i v :
  valid_samples 0 ys = (x0, y0) :: pts ->
  nth_error ys i = Some (Some v) -> x0 <= Z.of_nat i.
Proof.
  intros E H.
  assert (In (Z.of_nat i, v) (valid_samples 0 ys)) as Hin
      by (apply valid_samples_In; exists i; split; [lia | exact H]).
  pose proof (valid_samples_sorted 0 ys) as S. rewrite E in Hin, S.
  destruct Hin as [C|Hin]; [injection C as -> _; lia|].
  inversion S as [|? ? _ Hall]; subst. rewrite Forall_forall in Hall.
  specialize (Hall _ Hin). unfold before in Hall. simpl in Hall. lia.
Qed.

(** From the first number on, every cell of the interpolated column holds
    a number. *)
Lemma interpolate_defined_after ys i v k :
  nth_error ys i = Some (Some v) ->
  (i <= k)%nat -> (k < List.length ys)%nat ->
  exists w, nth_error (interpolate_linear ys) k = Some (Some w).
Proof.
  intros Hi Hik Hk. unfold interpolate_linear.
  destruct (valid_samples 0 ys) as [|[x0 y0] pts] eqn:E.
  - assert (In (Z.of_nat i, v) (valid_samples 0 ys)) as Hin
        by (apply valid_samples_In; exists i; split; [lia | exact Hi]).
    rewrite E in Hin. contradiction.
  - pose proof (first_sample_least _ _ _ _ _ _ E Hi) as H0.
    rewrite fill_from_nth.
    destruct (nth_error ys k) as [[y|]|] eqn:Ek.
    + eauto.
    + destruct (Z.ltb_spec (0 + Z.of_nat k) x0); [lia | eauto].
    + apply nth_error_None in Ek. lia.
Qed.

Lemma np_interp_between k i v0 j v1 x0 y0 pts :
  StronglySorted before ((x0, y0) :: pts) ->
  In (i, v0) ((x0, y0) :: pts) ->
  In (j, v1) ((x0, y0) :: pts) ->
  (forall x y, In (x, y) ((x0, y0) :: pts) -> x <= i \/ j <= x) ->
  i < k < j ->
  np_interp_from k x0 y0 pts = on_line i v0 j v1 k.
Proof.
  revert x0 y0. induction pts as [|[x1 y1] pts IH];
    intros x0 y0 S Hi Hj Hgap Hk.
  - destruct Hi as [Ei|[]], Hj as [Ej|[]]. injection Ei as -> _.
    injection Ej as E _. lia.
  - inversion S as [|? ? S' Hall]; subst. rewrite Forall_forall in Hall.
    pose proof (Hall _ (or_introl eq_refl)) as H01.
    unfold before in H01. simpl in H01.
    assert (forall p, In p ((x1, y1) :: pts) -> x0 < fst p) as Hlt
        by (intros p Hp; apply (Hall p Hp)).
    simpl. destruct (Z.ltb_spec k x1) as [Hk1|Hk1].
    + assert ((x0, y0) = (i, v0)) as E0.
      { destruct Hi as [E|Hi]; [exact E|].
        inversion S' as [|? ? _ Hall1]; subst. rewrite Forall_forall in Hall1.
        destruct Hi as [E|Hi].
        - injection E as <- _. lia.
        - specialize (Hall1 _ Hi). unfold before in Hall1. simpl in Hall1.
          lia. }
      injection E0 as -> ->.
      assert ((x1, y1) = (j, v1)) as E1.
      { destruct (Hgap x1 y1 (or_intror (or_introl eq_refl))) as [C|Hj1];
          [lia|].
        destruct Hj as [E|[E|Hj]]; [injection E as <- _; lia | exact E|].
        inversion S' as [|? ? _ Hall1]; subst. rewrite Forall_forall in Hall1.
        specialize (Hall1 _ Hj). unfold before in Hall1. simpl in Hall1.
        lia. }
      injection E1 as -> ->.
      destruct (Z.eqb_spec k i); [lia | reflexivity].
    + apply IH; auto.
      * destruct Hi as [E|Hi]; [|exact Hi]. injection E as -> _.
        destruct (Hgap x1 y1 (or_intror (or_introl eq_refl))); lia.
      * destruct Hj as [E|Hj]; [|exact Hj]. injection E as -> _. lia.
      * intros x y Hxy. apply (Hgap x y). now right.
Qed.

(** Between two numbers with nothing known in between, the interpolated
    column follows the straight line through them. *)
Lemma interpolate_between ys i v0 j v1 k :
  nth_error ys i = Some (Some v0) ->
  nth_error ys j = Some (Some v1) ->
  (forall m, (i < m)%nat -> (m < j)%nat -> nth_error ys m = Some None) ->
  (i < k)%nat -> (k < j)%nat ->
  nth_error (interpolate_linear ys) k
  = Some (Some (on_line (Z.of_nat i) v0 (Z.of_nat j) v1 (Z.of_nat k))).
Proof.
  intros Hi Hj Hnone Hik Hkj. unfold interpolate_linear.
  assert (In (Z.of_nat i, v0) (valid_samples 0 ys)) as Ini
      by (apply valid_samples_In; exists i; split; [lia | exact Hi]).
  assert (In (Z.of_nat j, v1) (valid_samples 0 ys)) as Inj
      by (apply valid_samples_In; exists j; split; [lia | exact Hj]).
  assert (forall x y, In (x, y) (valid_samples 0 ys) ->
                      x <= Z.of_nat i \/ Z.of_nat j <= x) as Hgap.
  { intros x y H. apply valid_samples_In in H. destruct H as (m & -> & Hm).
    destruct (Nat.le_gt_cases m i); [lia|].
    destruct (Nat.le_gt_cases j m); [lia|].
    rewrite Hnone in Hm by assumption. discriminate. }
  pose proof (valid_samples_sorted 0 ys) as S.
  destruct (valid_samples 0 ys) as [|[x0 y0] pts] eqn:E; [contradiction|].
  pose proof (first_sample_least _ _ _ _ _ _ E Hi) as H0.
  rewrite fill_from_nth, (Hnone k Hik Hkj).
  destruct (Z.ltb_spec (0 + Z.of_nat k) x0); [lia|].
  do 2 f_equal. apply np_interp_between; auto. lia.
Qed.

(** ** Further properties of the normaliser *)

(** X7.  From the first grid position that holds a number onward, the
    normalised numeric column has no gap left. *)
Theorem no_gap_after_first_known (df : DataFrame) (i : nat) (v : Q) :
  nth_error (grid_column df) i = Some (Some v) ->
  exists out,
    fill_missing_hours_and_interpolate df = Ok out
    /\ forall k, (i <= k)%nat -> (k < List.length out)%nat ->
                 exists w, nth_error (map Meas out) k = Some (Some w).
Proof.
  intros Hi.
  assert (df <> []) as Hne by (intros ->; now destruct i).
  exists (normalised df). split; [now apply normaliser_returns|].
  intros k Hik Hk. rewrite normalised_column.
  apply (interpolate_defined_after _ i v); auto.
  rewrite <- (length_map Meas), normalised_column, interpolate_length in Hk.
  exact Hk.
Qed.

Lemma no_gap_after_first_known_witness :
  exists out,
    fill_missing_hours_and_interpolate
      [reading 0 None; reading 3600 (Some (2#1)); reading 12600 (Some (5#1))]
    = Ok out
    /\ forall k, (1 <= k)%nat -> (k < List.length out)%nat ->
                 exists w, nth_error (map Meas out) k = Some (Some w).
Proof.
  apply (no_gap_after_first_known
           [reading 0 None; reading 3600 (Some (2#1));
            reading 12600 (Some (5#1))] 1 (2#1)).
  reflexivity.
Defined.

(** X8.  Interpolation is local.  Between two grid positions that hold
    numbers, with no number known in between, the normalised value depends
    on those two numbers and on the positions only: two series that agree
    on them get the same number there, whatever else they hold. *)
Theorem interpolation_is_local
        (df df' : DataFrame) (i j k : nat) (v0 v1 : Q) :
  nth_error (grid_column df) i = Some (Some v0) ->
  nth_error (grid_column df) j = Some (Some v1) ->
  (forall m, (i < m)%nat -> (m < j)%nat ->
             nth_error (grid_column df) m = Some None) ->
  nth_error (grid_column df') i = Some (Some v0) ->
  nth_error (grid_column df') j = Some (Some v1) ->
  (forall m, (i < m)%nat -> (m < j)%nat ->
             nth_error (grid_column df') m = Some None) ->
  (i < k)%nat -> (k < j)%nat ->
  exists out out' w,
    fill_missing_hours_and_interpolate df = Ok out
    /\ fill_missing_hours_and_interpolate df' = Ok out'
    /\ nth_error (map Meas out) k = Some (Some w)
    /\ nth_error (map Meas out') k = Some (Some w).
Proof.
  intros Hi Hj Hnone Hi' Hj' Hnone' Hik Hkj.
  assert (df <> []) as Hne by (intros ->; now destruct i).
  assert (df' <> []) as Hne' by (intros ->; now destruct i).
  exists (normalised df), (normalised df'),
         (on_line (Z.of_nat i) v0 (Z.of_nat j) v1 (Z.of_nat k)).
  split; [now apply normaliser_returns|].
  split; [now apply normaliser_returns|].
  rewrite !normalised_column.
  split; now apply interpolate_between.
Qed.

Lemma interpolation_is_local_witness :
  exists out out' w,
    fill_missing_hours_and_interpolate
      [reading 0 (Some (1#1)); reading 14400 (Some (9#1))] = Ok out
    /\ fill_missing_hours_and_interpolate
         [reading 0 (Some (1#1)); reading 14400 (Some (9#1));
          reading 21600 (Some (100#1))] = Ok out'
    /\ nth_error (map Meas out) 1 = Some (Some w)
    /\ nth_error (map Meas out') 1 = Some (Some w).
Proof.
  apply (interpolation_is_local
           [reading 0 (Some (1#1)); reading 14400 (Some (9#1))]
           [reading 0 (Some (1#1)); reading 14400 (Some (9#1));
            reading 21600 (Some (100#1))]
           0 4 1 (1#1) (9#1)).
  - reflexivity.
  - reflexivity.
  - intros [|[|[|[|m]]]] H1 H2; try lia; reflexivity.
  - reflexivity.
  - reflexivity.
  - intros [|[|[|[|m]]]] H1 H2; try lia; reflexivity.
  - lia.
  - lia.
Defined.

(** ** Frames whose index is already distinct and in order *)

Lemma drop_from_id seen df :
  NoDup (map Datetime df) ->
  (forall r, In r df -> ~ In (Datetime r) seen) ->
  drop_duplicates_from seen df = df.
Proof.
  revert seen. induction df as [|x df IH]; intros seen ND Hs; simpl;
    [reflexivity|].
  inversion ND as [|? ? Hx ND']; subst.
  destruct (existsb (Z.eqb (Datetime x)) seen) eqn:E.
  - apply existsb_eqb_In in E. exfalso. apply (Hs x); [now left | exact E].
  - f_equal. apply IH; [exact ND'|].
    intros r Hr [C|C].
    + apply Hx. rewrite C. now apply in_map.
    + apply (Hs r); [now right | exact C].
Qed.

Lemma drop_duplicates_id df :
  NoDup (map Datetime df) -> drop_duplicates df = df.
Proof. intros ND. apply drop_from_id; auto. Qed.

Lemma drop_from_ext seen seen' df :
  (forall t, In t seen <-> In t seen') ->
  drop_duplicates_from seen df = drop_duplicates_from seen' df.
Proof.
  revert seen seen'. induction df as [|x df IH]; intros seen seen' H; simpl;
    [reflexivity|].
  assert (existsb (Z.eqb (Datetime x)) seen
          = existsb (Z.eqb (Datetime x)) seen') as ->.
  { apply eq_true_iff_eq. rewrite !existsb_eqb_In. apply H. }
  destruct (existsb (Z.eqb (Datetime x)) seen').
  - now apply IH.
  - f_equal. apply IH. intros t. simpl. rewrite H. tauto.
Qed.

Lemma drop_from_app seen l1 l2 :
  drop_duplicates_from seen (l1 ++ l2)
  = drop_duplicates_from seen l1
    ++ drop_duplicates_from (rev (map Datetime l1) ++ seen) l2.
Proof.
  revert seen. induction l1 as [|x l1 IH]; intros seen; simpl;
    [reflexivity|].
  destruct (existsb (Z.eqb (Datetime x)) seen) eqn:E.
  - rewrite IH. f_equal. apply drop_from_ext. intros t.
    rewrite <- app_assoc. rewrite !in_app_iff. simpl.
    apply existsb_eqb_In in E. split; [tauto|].
    intros [H|[[<-|[]]|H]]; tauto.
  - simpl. f_equal. rewrite IH. f_equal. apply drop_from_ext. intros t.
    rewrite <- app_assoc. rewrite !in_app_iff. simpl. tauto.
Qed.

Lemma insert_row_sorted r l :
  StronglySorted Z.le (map Datetime l) ->
  StronglySorted Z.le (map Datetime (insert_row r l)).
Proof.
  induction l as [|x l IH]; intros S; simpl.
  - repeat constructor.
  - inversion S as [|? ? S' Hall]; subst.
    destruct (Z.leb_spec (Datetime r) (Datetime x)) as [Hle|Hgt].
    + simpl. constructor; [exact S|]. constructor; [exact Hle|].
      rewrite Forall_forall in *. intros t Ht. specialize (Hall t Ht). lia.
    + simpl. constructor; [now apply IH|].
      eapply Permutation_Forall.
      * apply Permutation_map. symmetry. apply insert_row_perm.
      * simpl. constructor; [lia | exact Hall].
Qed.

Lemma sort_index_sorted df : StronglySorted Z.le (map Datetime (sort_index df)).
Proof.
  induction df as [|r df IH]; simpl; [constructor|].
  now apply insert_row_sorted.
Qed.

Lemma sort_index_id df :
  StronglySorted Z.le (map Datetime df) -> sort_index df = df.
Proof.
  induction df as [|x df IH]; intros S; simpl; [reflexivity|].
  inversion S as [|? ? S' Hall]; subst. rewrite (IH S').
  destruct df as [|y df]; [reflexivity|]. simpl.
  inversion Hall as [|? ? Hxy _]; subst.
  destruct (Z.leb_spec (Datetime x) (Datetime y)); [reflexivity | lia].
Qed.

Lemma sorted_lt_le l : StronglySorted Z.lt l -> StronglySorted Z.le l.
Proof.
  induction 1 as [|t l _ IH Hall]; constructor; [exact IH|].
  rewrite Forall_forall in *. intros u Hu. specialize (Hall u Hu). lia.
Qed.

(** Two sorted frames with the same rows and distinct stamps are equal. *)
Lemma sorted_perm_unique l1 l2 :
  StronglySorted Z.le (map Datetime l1) ->
  StronglySorted Z.le (map Datetime l2) ->
  Permutation l1 l2 -> NoDup (map Datetime l1) -> l1 = l2.
Proof.
  revert l2. induction l1 as [|a l1 IH]; intros l2 S1 S2 P ND.
  - now apply Permutation_nil in P.
  - destruct l2 as [|b l2].
    { symmetry in P. now apply Permutation_nil in P. }
    simpl in S1, S2.
    inversion S1 as [|? ? S1' H1]; subst.
    inversion S2 as [|? ? S2' H2]; subst.
    rewrite Forall_forall in H1, H2.
    assert (In b (a :: l1)) as Hb
        by (apply (Permutation_in _ (Permutation_sym P)); now left).
    assert (In a (b :: l2)) as Ha
        by (apply (Permutation_in _ P); now left).
    assert (Datetime a = Datetime b) as E.
    { apply Z.le_antisymm.
      - destruct Hb as [->|Hb]; [lia|]. apply H1. now apply in_map.
      - destruct Ha as [->|Ha]; [lia|]. apply H2. now apply in_map. }
    assert (a = b) as <-.
    { apply (NoDup_map_inj Datetime (a :: l1)); auto. now left. }
    f_equal. apply IH; auto.
    + now apply Permutation_cons_inv in P.
    + now inversion ND.
Qed.

Lemma resample_by_sorted df df' :
  sort_index df = sort_index df' ->
  resample_h_asfreq df = resample_h_asfreq df'.
Proof. intros H. unfold resample_h_asfreq. now rewrite H. Qed.

(** X9.  The order of the rows matters for duplicates only: two series with
    the same rows and no repeated timestamp normalise to the same result. *)
Theorem row_order_irrelevant (df df' : DataFrame) :
  Permutation df df' ->
  NoDup (map Datetime df) ->
  fill_missing_hours_and_interpolate df
  = fill_missing_hours_and_interpolate df'.
Proof.
  intros P ND.
  assert (NoDup (map Datetime df')) as ND'
      by (apply (Permutation_NoDup (Permutation_map Datetime P)); exact ND).
  unfold fill_missing_hours_and_interpolate.
  rewrite (drop_duplicates_id df ND), (drop_duplicates_id df' ND').
  assert (resample_h_asfreq df = resample_h_asfreq df') as ->;
    [|reflexivity].
  apply resample_by_sorted. apply sorted_perm_unique.
  - apply sort_index_sorted.
  - apply sort_index_sorted.
  - rewrite (sort_index_perm df), (sort_index_perm df'). exact P.
  - now apply sort_index_NoDup.
Qed.

Lemma row_order_irrelevant_witness :
  fill_missing_hours_and_interpolate
    [reading 9000 (Some (5#1)); reading 0 (Some (1#1))]
  = fill_missing_hours_and_interpolate
      [reading 0 (Some (1#1)); reading 9000 (Some (5#1))].
Proof.
  apply row_order_irrelevant.
  - apply perm_swap.
  - repeat constructor; simpl; intuition discriminate.
Defined.

(** X10.  A row whose timestamp already occurs earlier in the series has no
    influence on the result at all. *)
Theorem later_duplicate_ignored (l1 : DataFrame) (r : Row) (l2 : DataFrame) :
  In (Datetime r) (map Datetime l1) ->
  fill_missing_hours_and_interpolate (l1 ++ r :: l2)
  = fill_missing_hours_and_interpolate (l1 ++ l2).
Proof.
  intros H. unfold fill_missing_hours_and_interpolate.
  assert (drop_duplicates (l1 ++ r :: l2) = drop_duplicates (l1 ++ l2)) as ->;
    [|reflexivity].
  unfold drop_duplicates. rewrite !drop_from_app. f_equal. simpl.
  assert (existsb (Z.eqb (Datetime r)) (rev (map Datetime l1) ++ []) = true)
    as ->; [|reflexivity].
  apply existsb_eqb_In. rewrite app_nil_r. now apply in_rev in H.
Qed.

Lemma later_duplicate_ignored_witness :
  fill_missing_hours_and_interpolate
    ([reading 0 (Some (1#1)); reading 3600 (Some (2#1))]
       ++ reading 3600 (Some (9#1)) :: [reading 7200 (Some (3#1))])
  = fill_missing_hours_and_interpolate
      ([reading 0 (Some (1#1)); reading 3600 (Some (2#1))]
         ++ [reading 7200 (Some (3#1))]).
Proof.
  apply later_duplicate_ignored. simpl. tauto.
Defined.

(** ** Normalising twice *)

Lemma interpolate_missing_prefix ys k :
  nth_error (interpolate_linear ys) k = Some None ->
  forall j, (j <= k)%nat -> nth_error (interpolate_linear ys) j = Some None.
Proof.
  unfold interpolate_linear.
  destruct (valid_samples 0 ys) as [|[x0 y0] pts] eqn:E; intros Hk j Hj.
  - assert (j < List.length ys)%nat as Hlt
        by (apply Nat.le_lt_trans with k; [exact Hj|];
            apply nth_error_Some; congruence).
    destruct (nth_error ys j) as [[y|]|] eqn:Ej.
    + assert (In (Z.of_nat j, y) (valid_samples 0 ys)) as Hin
          by (apply valid_samples_In; exists j; split; [lia | exact Ej]).
      rewrite E in Hin. contradiction.
    + reflexivity.
    + apply nth_error_None in Ej. lia.
  - rewrite fill_from_nth in Hk. rewrite fill_from_nth.
    destruct (nth_error ys k) as [[y|]|] eqn:Ek; try discriminate.
    destruct (Z.ltb_spec (0 + Z.of_nat k) x0) as [Hlt|]; [|discriminate].
    assert (j < List.length ys)%nat as Hjl
        by (apply Nat.le_lt_trans with k; [exact Hj|];
            apply nth_error_Some; congruence).
    destruct (nth_error ys j) as [[y|]|] eqn:Ej.
    + pose proof (first_sample_least _ _ _ _ _ _ E Ej). lia.
    + destruct (Z.ltb_spec (0 + Z.of_nat j) x0); [reflexivity | lia].
    + apply nth_error_None in Ej. lia.
Qed.

(** Interpolating an interpolated column changes nothing. *)
Lemma interpolate_idempotent ys :
  interpolate_linear (interpolate_linear ys) = interpolate_linear ys.
Proof.
  apply nth_error_ext. intros k.
  destruct (nth_error (interpolate_linear ys) k) as [[w|]|] eqn:Ek.
  - now apply interpolate_known.
  - apply interpolate_leading. now apply interpolate_missing_prefix.
  - apply nth_error_None. rewrite interpolate_length.
    now apply nth_error_None.
Qed.

Lemma reindex_self out :
  NoDup (map Datetime out) -> reindex out (map Datetime out) = out.
Proof.
  intros ND. unfold reindex. rewrite map_map.
  transitivity (map (fun r : Row => r) out); [|apply map_id].
  apply map_ext_in. intros r Hr.
  destruct (find (fun x => Datetime x =? Datetime r) out) as [x|] eqn:F.
  - apply find_some in F. destruct F as [Hx F]. apply Z.eqb_eq in F.
    now apply (NoDup_map_inj Datetime out).
  - pose proof (find_none _ _ F r Hr) as C. simpl in C.
    rewrite Z.eqb_refl in C. discriminate.
Qed.

Lemma relabel_self out : relabel out (map Datetime out) = out.
Proof.
  induction out as [|r out IH]; simpl; [reflexivity|].
  now rewrite set_Datetime_same, IH.
Qed.

Lemma assign_Meas_self out : assign_Meas out (map Meas out) = out.
Proof.
  induction out as [|r out IH]; simpl; [reflexivity|].
  now rewrite set_Meas_same, IH.
Qed.

(** A frame whose index is a whole-hour grid comes out of the resampler as
    it went in. *)
Lemma resample_grid out a b :
  out <> [] -> on_the_hour a -> on_the_hour b -> a <= b ->
  map Datetime out = date_range a b ->
  resampled (drop_duplicates out) = out.
Proof.
  intros Hne Ha Hb Hab G.
  assert (StronglySorted Z.lt (map Datetime out)) as S
      by (rewrite G; apply date_range_sorted).
  rewrite (drop_duplicates_id out (sorted_lt_NoDup _ S)).
  assert (is_min a out) as Hmin.
  { split.
    - rewrite G. apply date_range_hours; [exact Ha|]. split; [lia | exact Ha].
    - intros r Hr. apply (in_map Datetime) in Hr. rewrite G in Hr.
      apply date_range_hours in Hr; [lia | exact Ha]. }
  assert (is_max b out) as Hmax.
  { split.
    - rewrite G. apply date_range_hours; [exact Ha|]. split; [lia | exact Hb].
    - intros r Hr. apply (in_map Datetime) in Hr. rewrite G in Hr.
      apply date_range_hours in Hr; [lia | exact Ha]. }
  rewrite (resample_eq out a b Hne Hmin Hmax).
  rewrite (sort_index_id out (sorted_lt_le _ S)).
  rewrite (floor_h_fixed _ Ha), (floor_h_fixed _ Hb), <- G.
  destruct (_ && _).
  - apply relabel_self.
  - apply reindex_self. now apply sorted_lt_NoDup.
Qed.

(** X11.  Normalising is idempotent: the normaliser returns its own output
    unchanged. *)
Theorem normaliser_idempotent (df out : DataFrame) :
  fill_missing_hours_and_interpolate df = Ok out ->
  fill_missing_hours_and_interpolate out = Ok out.
Proof.
  intros H. apply normaliser_Ok in H. destruct H as [Hne0 ->].
  rewrite (normaliser_returns _ (normalised_nonempty _ Hne0)). f_equal.
  destruct df as [|r0 df]; [contradiction|].
  assert (r0 :: df <> []) as Hne by discriminate.
  destruct (frame_extremes _ Hne) as (tmin & tmax & Hmin & Hmax).
  pose proof (normalised_grid _ tmin tmax Hne Hmin Hmax) as G.
  pose proof (floor_h_mono _ _ (is_min_le_max _ _ _ Hmin Hmax)) as Hle.
  pose proof (normalised_nonempty _ Hne) as Hout.
  pose proof (proj2 (floor_h_spec tmin)) as Ha.
  pose proof (proj2 (floor_h_spec tmax)) as Hb.
  set (out := normalised (r0 :: df)) in *.
  unfold normalised at 1.
  rewrite (resample_grid out _ _ Hout Ha Hb Hle G).
  unfold out at 2. rewrite normalised_column, interpolate_idempotent.
  rewrite <- normalised_column. apply assign_Meas_self.
Qed.

Lemma normaliser_idempotent_witness :
  fill_missing_hours_and_interpolate
    [reading 0 None; nan_row 3600; reading 7200 (Some (7#1));
     set_Meas (nan_row 10800) (Some (15#2)); reading 14400 (Some (8#1));
     set_Meas (nan_row 18000) (Some (8#1))]
  = Ok [reading 0 None; nan_row 3600; reading 7200 (Some (7#1));
        set_Meas (nan_row 10800) (Some (15#2)); reading 14400 (Some (8#1));
        set_Meas (nan_row 18000) (Some (8#1))].
Proof.
  apply (normaliser_idempotent
           [reading 0 None; reading 7200 (Some (7#1));
            reading 14400 (Some (8#1)); reading 19800 None]).
  reflexivity.
Defined.

(** ** Where the rows of the output come from *)

Lemma floor_h_add t k : floor_h (t + HOUR * k) = floor_h t + HOUR * k.
Proof.
  unfold floor_h. rewrite (Z.mul_comm HOUR k), Z.mod_add by discriminate. lia.
Qed.

Lemma labels_set_Meas r y : labels (set_Meas r y) = labels r.
Proof. reflexivity. Qed.

Lemma labels_set_Datetime r t : labels (set_Datetime r t) = labels r.
Proof. reflexivity. Qed.

(** X12.  The normaliser invents no labels.  An output row either carries no
    non-numeric cell at all, or it carries the non-numeric cells of one
    surviving input row, and then it sits at the start of the hour of that
    row. *)
Theorem labels_come_from_input (df out : DataFrame) (x : Row) :
  fill_missing_hours_and_interpolate df = Ok out ->
  In x out ->
  labels x = (None, None, None, None)
  \/ exists r,
       In r (drop_duplicates df)
       /\ labels x = labels r
       /\ Datetime x = floor_h (Datetime r).
Proof.
  intros H Hx. apply normaliser_Ok in H. destruct H as [_ ->].
  apply In_nth_error in Hx. destruct Hx as [k Hk].
  apply normalised_nth in Hk. destruct Hk as (r' & y & Hr' & ->).
  rewrite labels_set_Meas. cbn [set_Meas Datetime].
  set (dd := drop_duplicates df) in *.
  assert (dd <> []) as Hne by (intros C; rewrite C in Hr'; now destruct k).
  destruct (frame_extremes dd Hne) as (tmin & tmax & Hmin & Hmax).
  destruct (resample_cases dd tmin tmax Hne Hmin Hmax) as [R|(Hh & L & R)];
    rewrite R in Hr'.
  - apply nth_error_In in Hr'. unfold reindex in Hr'.
    apply in_map_iff in Hr'. destruct Hr' as (t & E & Ht).
    destruct (find (fun r => Datetime r =? t) (sort_index dd)) as [r|] eqn:F.
    + right. subst r'. exists r.
      apply find_some in F. destruct F as [Hr F]. apply Z.eqb_eq in F.
      split; [now apply sort_index_In|]. split; [reflexivity|].
      apply date_range_hours in Ht; [|apply floor_h_spec].
      symmetry. apply floor_h_fixed. rewrite F. tauto.
    + left. now subst r'.
  - right. rewrite relabel_nth in Hr'.
    destruct (nth_error (sort_index dd) k) as [r|] eqn:Er; [|discriminate].
    destruct (nth_error (date_range _ _) k) as [t|] eqn:Et; [|discriminate].
    injection Hr' as <-. exists r.
    split; [apply sort_index_In; now apply (nth_error_In _ k)|].
    split; [reflexivity|]. cbn [set_Datetime Datetime].
    apply date_range_nth in Et.
    destruct (sort_index dd) as [|r0 tl] eqn:Eobj; [now destruct k|].
    pose proof (hourly_head_is_min dd tmin r0 tl Hmin Eobj Hh) as H0.
    assert (Datetime r = grid_point tmin k) as ->.
    { apply (all_hourly_nth (map Datetime (r0 :: tl)) tmin k); auto.
      - simpl. now rewrite H0.
      - now rewrite nth_error_map, Er. }
    unfold grid_point in *. now rewrite floor_h_add.
Qed.

Lemma labels_come_from_input_witness :
  labels (nan_row 3600) = (None, None, None, None)
  \/ exists r,
       In r (drop_duplicates
               [reading 1800 (Some (1#1)); reading 9000 (Some (5#1))])
       /\ labels (nan_row 3600) = labels r
       /\ Datetime (nan_row 3600) = floor_h (Datetime r).
Proof.
  apply (labels_come_from_input
           [reading 1800 (Some (1#1)); reading 9000 (Some (5#1))]
           [nan_row 0; nan_row 3600; nan_row 7200]).
  - reflexivity.
  - simpl. tauto.
Defined.

(** ** Series that are already hourly *)

Lemma all_hourly_sorted ax : all_hourly ax = true -> StronglySorted Z.lt ax.
Proof.
  induction ax as [|a ax IH]; intros H; [constructor|].
  destruct ax as [|b ax]; [repeat constructor|].
  cbn [all_hourly] in H. apply andb_prop in H. destruct H as [Hb H].
  apply Z.eqb_eq in Hb. specialize (IH H).
  constructor; [exact IH|].
  inversion IH as [|? ? _ Hall]; subst.
  constructor; [unfold HOUR in *; lia|].
  rewrite Forall_forall in *. intros t Ht. specialize (Hall t Ht).
  unfold HOUR in *. lia.
Qed.

Lemma assign_Meas_labels df ys :
  List.length df = List.length ys ->
  map labels (assign_Meas df ys) = map labels df.
Proof.
  revert ys. induction df as [|r df IH]; intros [|y ys] H;
    simpl in *; try congruence.
  f_equal. apply IH. congruence.
Qed.

Lemma resample_hourly df :
  all_hourly (map Datetime df) = true -> (3 <= List.length df)%nat ->
  resampled (drop_duplicates df) = map snap df.
Proof.
  intros Hh Hlen.
  pose proof (all_hourly_sorted _ Hh) as S.
  rewrite (drop_duplicates_id df (sorted_lt_NoDup _ S)).
  assert (df <> []) as Hne by (intros ->; simpl in Hlen; lia).
  destruct (frame_extremes df Hne) as (tmin & tmax & Hmin & Hmax).
  pose proof (sort_index_id df (sorted_lt_le _ S)) as Hs.
  rewrite (resample_eq df tmin tmax Hne Hmin Hmax), Hs.
  destruct df as [|r0 tl] eqn:Edf; [contradiction|]. rewrite <- Edf in *.
  assert (Datetime r0 = tmin) as H0.
  { apply (hourly_head_is_min df tmin r0 tl Hmin); [now rewrite Hs|].
    now rewrite <- Edf. }
  assert (forall k r, nth_error df k = Some r ->
                      Datetime r = grid_point tmin k) as Hnth.
  { intros k r Hk.
    apply (all_hourly_nth (map Datetime df) tmin k); auto.
    - rewrite Edf. simpl. now rewrite H0.
    - now rewrite nth_error_map, Hk. }
  assert (tmax = grid_point tmin (List.length df - 1)) as Emax.
  { destruct Hmax as [Hin Hle]. apply in_map_iff in Hin.
    destruct Hin as (r & <- & Hr). apply In_nth_error in Hr.
    destruct Hr as [k Hk].
    assert (k < List.length df)%nat as Hkl
        by (apply nth_error_Some; congruence).
    destruct (nth_error df (List.length df - 1)) as [rl|] eqn:El.
    2:{ apply nth_error_None in El. lia. }
    pose proof (Hle rl (nth_error_In _ _ El)) as Hb.
    rewrite (Hnth _ _ Hk). rewrite (Hnth _ _ Hk), (Hnth _ _ El) in Hb.
    unfold grid_point, HOUR in *. f_equal. f_equal. lia. }
  assert (List.length (date_range (floor_h tmin) (floor_h tmax))
          = List.length df) as L.
  { rewrite date_range_length, Emax. unfold grid_point.
    rewrite floor_h_add.
    replace (floor_h tmin + HOUR * Z.of_nat (List.length df - 1) - floor_h tmin)
      with (Z.of_nat (List.length df - 1) * HOUR) by lia.
    rewrite Z.div_mul by discriminate. lia. }
  assert (inferred_freq_is_h (map Datetime df) = true) as ->.
  { unfold inferred_freq_is_h. rewrite Hh, length_map.
    apply andb_true_intro. split; [now apply Nat.leb_le | reflexivity]. }
  rewrite L, Nat.eqb_refl. cbn [andb].
  apply nth_error_ext. intros k.
  rewrite relabel_nth, nth_error_map.
  destruct (nth_error df k) as [r|] eqn:Ek; [|reflexivity].
  assert (k < List.length (date_range (floor_h tmin) (floor_h tmax)))%nat
    as Hk by (rewrite L; apply nth_error_Some; congruence).
  apply nth_error_Some in Hk.
  destruct (nth_error (date_range _ _) k) as [t|] eqn:Et; [|congruence].
  apply date_range_nth in Et. cbn [option_map]. f_equal.
  unfold snap. rewrite (Hnth _ _ Ek), Et. unfold grid_point.
  now rewrite floor_h_add.
Qed.

(** X13.  A series of three or more readings exactly one hour apart is not
    thinned out even when its readings are off the hour: every reading is
    kept, in order, with its labels, moved to the start of its hour. *)
Theorem hourly_series_snapped (df : DataFrame) :
  all_hourly (map Datetime df) = true ->
  (3 <= List.length df)%nat ->
  exists out,
    fill_missing_hours_and_interpolate df = Ok out
    /\ map Datetime out = map (fun r => floor_h (Datetime r)) df
    /\ map labels out = map labels df
    /\ map Meas out = interpolate_linear (map Meas df).
Proof.
  intros Hh Hlen. exists (normalised df).
  assert (df <> []) as Hne by (intros ->; simpl in Hlen; lia).
  split; [now apply normaliser_returns|].
  assert (map Meas (map snap df) = map Meas df) as Hm
      by (rewrite map_map; reflexivity).
  unfold normalised. rewrite (resample_hourly df Hh Hlen), Hm.
  assert (List.length (map snap df)
          = List.length (interpolate_linear (map Meas df))) as L
      by now rewrite interpolate_length, !length_map.
  split; [|split].
  - rewrite (assign_Meas_stamps _ _ L), map_map. reflexivity.
  - rewrite (assign_Meas_labels _ _ L), map_map. reflexivity.
  - apply (assign_Meas_column _ _ L).
Qed.

Lemma hourly_series_snapped_witness :
  exists out,
    fill_missing_hours_and_interpolate
      [reading 1800 (Some (1#1)); reading 5400 (Some (5#1));
       reading 9000 (Some (7#1))] = Ok out
    /\ map Datetime out = [0; 3600; 7200]
    /\ map Meas out = [Some (1#1); Some (5#1); Some (7#1)].
Proof.
  destruct (hourly_series_snapped
              [reading 1800 (Some (1#1)); reading 5400 (Some (5#1));
               reading 9000 (Some (7#1))]) as (out & E & T & _ & M).
  - reflexivity.
  - simpl. lia.
  - exists out. split; [exact E|]. split; [exact T | exact M].
Defined.

(** ** Series without a reading on the hour *)

Lemma valid_samples_none i ys :
  Forall (fun y => y = None) ys -> valid_samples i ys = [].
Proof.
  intros H. revert i. induction H as [|y ys -> _ IH]; intros i; simpl;
    [reflexivity | apply IH].
Qed.

Lemma reindex_off_hour obj idx :
  (forall r, In r obj -> ~ on_the_hour (Datetime r)) ->
  (forall t, In t idx -> on_the_hour t) ->
  reindex obj idx = map nan_row idx.
Proof.
  intros Hoff Hon. unfold reindex. apply map_ext_in. intros t Ht.
  destruct (find (fun r => Datetime r =? t) obj) as [r|] eqn:F;
    [|reflexivity].
  apply find_some in F. destruct F as [Hr F]. apply Z.eqb_eq in F.
  exfalso. apply (Hoff r Hr). rewrite F. now apply Hon.
Qed.

(** X14.  Readings off the hour are not carried over to the grid: when no
    reading of the series lies on a whole hour, and the series is not three
    or more readings exactly one hour apart, the output is the bare hourly
    grid from floor(min) to floor(max), without a single number or label. *)
Theorem off_hour_series_is_lost (df : DataFrame) (tmin tmax : Z) :
  is_min tmin df -> is_max tmax df ->
  (forall r, In r df -> ~ on_the_hour (Datetime r)) ->
  inferred_freq_is_h (map Datetime (sort_index (drop_duplicates df))) = false ->
  fill_missing_hours_and_interpolate df
  = Ok (map nan_row (date_range (floor_h tmin) (floor_h tmax))).
Proof.
  intros Hmin Hmax Hoff Hfreq.
  assert (df <> []) as Hne by (intros ->; destruct Hmin as [[] _]).
  rewrite (normaliser_returns _ Hne). f_equal.
  pose proof (resample_eq _ tmin tmax (drop_duplicates_nonempty df Hne)
                          (is_min_dedup _ _ Hmin) (is_max_dedup _ _ Hmax)) as R.
  rewrite Hfreq in R. cbn [andb] in R.
  rewrite reindex_off_hour in R.
  - unfold normalised. rewrite R.
    set (idx := date_range (floor_h tmin) (floor_h tmax)).
    assert (map Meas (map nan_row idx) = map (fun _ => None) idx) as ->
        by (rewrite map_map; reflexivity).
    unfold interpolate_linear. rewrite valid_samples_none.
    + induction idx as [|t idx IH]; simpl; [reflexivity | now rewrite IH].
    + apply Forall_forall. intros y Hy. apply in_map_iff in Hy.
      now destruct Hy as (t & <- & _).
  - intros r Hr. apply Hoff. apply drop_duplicates_In.
    now apply sort_index_In.
  - intros t Ht. apply date_range_hours in Ht; [tauto | apply floor_h_spec].
Qed.

Lemma off_hour_series_is_lost_witness :
  fill_missing_hours_and_interpolate
    [reading 1800 (Some (1#1)); reading 9000 (Some (5#1))]
  = Ok [nan_row 0; nan_row 3600; nan_row 7200].
Proof.
  apply (off_hour_series_is_lost
           [reading 1800 (Some (1#1)); reading 9000 (Some (5#1))] 1800 9000).
  - split; [simpl; tauto|]. intros r [<-|[<-|[]]]; simpl; lia.
  - split; [simpl; tauto|]. intros r [<-|[<-|[]]]; simpl; lia.
  - intros r [<-|[<-|[]]]; discriminate.
  - reflexivity.
Defined.

(** ** Further properties of the loader *)

(** X15.  Whenever the load returns a table, the directory exists and holds
    at least one matching file, and the table is the unified table: one row
    per raw row of the matching files, in listing order and in-file order,
    with the cells carried over and the timestamp parsed from date and
    time. *)
Theorem load_data_returns_unified_table
        (strptime_HMS : string -> option TimeOfDay)
        (to_datetime : string -> option Z)
        (listdir : string -> option Listing)
        (directory : string) (df : DataFrame) :
  load_data strptime_HMS to_datetime listdir directory = Ok df ->
  exists entries,
    listdir directory = Some entries
    /\ file_list entries <> []
    /\ Forall2 (unified strptime_HMS to_datetime)
               (List.concat (map snd (file_list entries))) df
    /\ List.length df
       = List.length (List.concat (map snd (file_list entries))).
Proof.
  intros H. destruct (listdir directory) as [entries|] eqn:Hd;
    [|unfold load_data in H; rewrite Hd in H; discriminate].
  exists entries. split; [reflexivity|].
  destruct (load_data_Ok_rows strptime_HMS to_datetime listdir
                              directory entries df Hd H) as [Hne Hall].
  split; [exact Hne|]. split; [exact Hall|].
  symmetry. apply (Forall2_length Hall).
Qed.

Lemma load_data_returns_unified_table_witness :
  exists entries,
    disk [("log.XLSX", sheet_off_hour); ("old.xlsx", sheet_bad_time)] GT5
    = Some entries
    /\ file_list entries <> []
    /\ List.length
         [mkRow 1704069000 (Some "2024-01-01") (Some "00:30:00") (Some "Temp")
                (Some (1#1)) (Some "degC");
          mkRow 1704074400 (Some "2024-01-01") (Some "02:00:00") (Some "Temp")
                (Some (2#1)) (Some "degC")]
       = List.length (List.concat (map snd (file_list entries))).
Proof.
  destruct (load_data_returns_unified_table
              Strptime.strptime_HMS Strptime.to_datetime
              (disk [("log.XLSX", sheet_off_hour);
                     ("old.xlsx", sheet_bad_time)])
              GT5
              [mkRow 1704069000 (Some "2024-01-01") (Some "00:30:00")
                     (Some "Temp") (Some (1#1)) (Some "degC");
               mkRow 1704074400 (Some "2024-01-01") (Some "02:00:00")
                     (Some "Temp") (Some (2#1)) (Some "degC")])
    as (entries & Hd & Hne & _ & L).
  - reflexivity.
  - exists entries. split; [exact Hd|]. split; [exact Hne | exact L].
Defined.

Lemma read_file_bad_time strptime_HMS to_datetime pre r post :
  (forall x, In x pre -> strptime_HMS (raw_Measurement_time x) <> None) ->
  strptime_HMS (raw_Measurement_time r) = None ->
  read_file strptime_HMS to_datetime (pre ++ r :: post)
  = Raise (ValueError_parse TimeColumn (raw_Measurement_time r)).
Proof.
  intros Hpre Hr. unfold read_file.
  assert (mapM (parse_time strptime_HMS) (pre ++ r :: post)
          = Raise (ValueError_parse TimeColumn (raw_Measurement_time r)))
    as E.
  { induction pre as [|x pre IH]; cbn [app mapM].
    - unfold parse_time at 1. now rewrite Hr.
    - unfold parse_time at 1.
      destruct (strptime_HMS (raw_Measurement_time x)) as [t|] eqn:Ex.
      + cbn [bind]. rewrite IH; [reflexivity|].
        intros y Hy. apply Hpre. now right.
      + exfalso. apply (Hpre x); [now left | exact Ex]. }
  now rewrite E.
Qed.

(** X16.  Within a file the whole time column is parsed before any date is
    looked at: when the first matching file holds a time value the format
    rejects, the load raises the parse error of the first such value,
    whatever the date cells of that file look like. *)
Theorem first_bad_time_is_reported
        (strptime_HMS : string -> option TimeOfDay)
        (to_datetime : string -> option Z)
        (listdir : string -> option Listing)
        (directory : string) (entries : Listing)
        (name : string) (pre : Sheet) (r : RawRow) (post : Sheet)
        (others : Listing) :
  listdir directory = Some entries ->
  file_list entries = (name, pre ++ r :: post) :: others ->
  (forall x, In x pre -> strptime_HMS (raw_Measurement_time x) <> None) ->
  strptime_HMS (raw_Measurement_time r) = None ->
  load_data strptime_HMS to_datetime listdir directory
  = Raise (ValueError_parse TimeColumn (raw_Measurement_time r)).
Proof.
  intros Hd Hf Hpre Hr. unfold load_data. rewrite Hd, Hf.
  cbn [mapM snd].
  now rewrite (read_file_bad_time strptime_HMS to_datetime pre r post Hpre Hr).
Qed.

Lemma first_bad_time_is_reported_witness :
  load_data Strptime.strptime_HMS Strptime.to_datetime
            (disk [("bad.XLSX",
                    [mkRaw "no date" "01:00:00" "Temp" (Some (1#1)) "degC"]
                      ++ mkRaw "2024-01-01" "1 pm" "Temp" (Some (2#1)) "degC"
                      :: [])])
            GT5
  = Raise (ValueError_parse TimeColumn "1 pm").
Proof.
  apply (first_bad_time_is_reported
           Strptime.strptime_HMS Strptime.to_datetime _ GT5
           [("bad.XLSX",
             [mkRaw "no date" "01:00:00" "Temp" (Some (1#1)) "degC"]
               ++ mkRaw "2024-01-01" "1 pm" "Temp" (Some (2#1)) "degC"
               :: [])]
           "bad.XLSX"
           [mkRaw "no date" "01:00:00" "Temp" (Some (1#1)) "degC"]
           (mkRaw "2024-01-01" "1 pm" "Temp" (Some (2#1)) "degC") [] []).
  - reflexivity.
  - reflexivity.
  - intros x [<-|[]]. discriminate.
  - reflexivity.
Defined.

(** ** The unit selector and the callback *)

(** X17.  The unit selector offers exactly the keys of [directories] and
    starts at one of them, so a callback fed from the selector never raises
    a key error. *)
Theorem selector_units_are_known
        (strptime_HMS : string -> option TimeOfDay)
        (to_datetime : string -> option Z)
        (listdir : string -> option Listing)
        (triggered directory_name : string) (selected : option string) :
  In directory_name (radio_value :: map snd radio_options) ->
  (exists directory, getitem directories directory_name = Ok directory)
  /\ update_output strptime_HMS to_datetime listdir
                   triggered directory_name selected
     <> Raise KeyError.
Proof.
  intros H.
  assert (In directory_name ["GT 5"; "GT 6"; "GT 7"]) as Hk
      by (simpl in *; tauto).
  split.
  - destruct Hk as [<-|[<-|[<-|[]]]]; eexists; reflexivity.
  - intros C.
    now apply (update_output_KeyError strptime_HMS to_datetime listdir
                                      triggered directory_name selected) in C.
Qed.

Lemma selector_units_are_known_witness :
  update_output Strptime.strptime_HMS Strptime.to_datetime (disk [])
                "directory-radio" "GT 6" None
  <> Raise KeyError.
Proof.
  apply (selector_units_are_known
           Strptime.strptime_HMS Strptime.to_datetime (disk [])
           "directory-radio" "GT 6" None).
  simpl. tauto.
Defined.
